(** * trytond.protocols.wrappers: request wrappers of the Tryton server

    A shallow embedding of [trytond/protocols/wrappers.py]:
    [parse_authorization_header], [with_pool], [with_transaction],
    [user_application] and the class [Request], with the Python built-ins
    they call.

    Layout: Python values and exceptions; float, bytes and str
    built-ins; the credential parser; a state-and-exception monad for the
    wrappers, which log every call they make to a collaborator
    (transaction, pool, worker, logger, clock); the three decorators; the
    properties of the [Request] class; then the theorems. *)

From Stdlib Require Import ZArith NArith List String Ascii Bool Lia.
From Stdlib Require Import Strings.Byte.
From Stdlib Require Import Floats.SpecFloat.
From Stdlib Require Import DecimalString.
From Stdlib Require Import Recdef FunInd.
Import ListNotations.

Set Implicit Arguments.

(** ** Python values and exceptions *)

(** A [bytes] object, and a [str] as the sequence of its code points. *)
Definition bytes := list byte.
Definition str := list N.

Definition ord (b : byte) : N := Byte.to_N b.

Definition chr (n : N) : byte :=
  match Byte.of_N (n mod 256) with
  | Some b => b
  | None => x00
  end.

(** Literals: [b"..."] and ["..."]. *)
Definition B (s : string) : bytes := list_byte_of_string s.
Definition U (s : string) : str := map ord (list_byte_of_string s).

(** The exception classes the wrappers tell apart. They are disjoint in
    the class hierarchy: [HTTPException] is werkzeug's, [UserError] and
    [UserWarning] are trytond's, [DatabaseOperationalError] is the
    backend's; [BinasciiError] and [UnicodeEncodeError] derive from
    [ValueError]. [ExceptionOther] is any other subclass of [Exception].
    What derives from [BaseException] only ([KeyboardInterrupt],
    [SystemExit], [GeneratorExit]) is not an error of a handler and is
    left out: no [except] clause of the module catches it. *)
#[warnings="-register-all"]
Inductive exn : Type :=
| HTTPException (code : Z) (description : option exn)
| UserError (message : string)
| UserWarning (message : string)
| DatabaseOperationalError (message : string)
| ValueError
| BinasciiError
| UnicodeEncodeError
| KeyError (key : string)
| ExceptionOther (name : string).

Definition is_HTTPException (e : exn) : bool :=
  match e with HTTPException _ _ => true | _ => false end.

Definition is_UserError (e : exn) : bool :=
  match e with UserError _ => true | _ => false end.

Definition is_UserWarning (e : exn) : bool :=
  match e with UserWarning _ => true | _ => false end.

Definition is_DatabaseOperationalError (e : exn) : bool :=
  match e with DatabaseOperationalError _ => true | _ => false end.

Definition is_ValueError (e : exn) : bool :=
  match e with
  | ValueError | BinasciiError | UnicodeEncodeError => true
  | _ => false
  end.

(** Every class above derives from [Exception]. *)
Definition is_Exception (e : exn) : bool := true.

(** [http.HTTPStatus] *)
Module HTTPStatus.
Definition BAD_REQUEST : Z := 400.
Definition UNAUTHORIZED : Z := 401.
Definition FORBIDDEN : Z := 403.
Definition TOO_MANY_REQUESTS : Z := 429.
Definition INTERNAL_SERVER_ERROR : Z := 500.
End HTTPStatus.

(** What a call does: it returns a value or raises. *)
Inductive outcome (A : Type) : Type :=
| Returned (a : A)
| Raised (e : exn).
Arguments Raised {A} e.

Definition obind {A B} (c : outcome A) (k : A -> outcome B) : outcome B :=
  match c with
  | Returned a => k a
  | Raised e => Raised e
  end.

Declare Scope outcome_scope.
Delimit Scope outcome_scope with outcome.
Notation "x <~ c ;; k" := (obind c (fun x => k))
  (at level 61, c at next level, right associativity) : outcome_scope.

(** Tuple unpacking [a, b = l] and [a, b, c = l]: [ValueError] unless the
    length is exactly right. *)
Definition unpack2 {A} (l : list A) : outcome (A * A) :=
  match l with
  | [a; b] => Returned (a, b)
  | _ => Raised ValueError
  end.

Definition unpack3 {A} (l : list A) : outcome (A * A * A) :=
  match l with
  | [a; b; c] => Returned (a, b, c)
  | _ => Raised ValueError
  end.

(** ** float

    A Python [float] is an IEEE 754 binary64 number: 53 bits of mantissa,
    exponents below 1024. Every operation gives the double nearest to the
    exact result, a tie going to the even mantissa. *)
Definition float : Type := spec_float.

(** The literal [0.02]: the double nearest to 1/50, which is
    5764607523034235 * 2^-58. *)
Definition float_0_02 : float := S754_finite false 5764607523034235 (-58).

(** An [int] operand of an arithmetic operator whose other operand is a
    float is converted to the nearest double first. (The interpreter
    refuses an int beyond the range of a double, 2^1024 - 2^970 and
    more, with [OverflowError], where this gives an infinity. The ints
    converted here are the numbers of attempts a call has already made,
    so that would take as many attempts.) *)
Definition float_of_int (z : Z) : float := binary_normalize 53 1024 z 0 false.

(** [x * y] *)
Definition float_mul (x y : float) : float := SFmul 53 1024 x y.

(** ** bytes built-ins *)

Definition bytes_eqb (a b : bytes) : bool :=
  if list_eq_dec Byte.byte_eq_dec a b then true else false.

(** [Py_ISSPACE]: tab, LF, VT, FF, CR, space. *)
Definition bytes_isspace (b : byte) : bool :=
  let n := ord b in
  (((9 <=? n) && (n <=? 13)) || (n =? 32))%N.

(** Splitting on whitespace is the same algorithm for bytes and str; only
    the test for a whitespace item differs. *)
Section SplitWhitespace.
Variable A : Type.
Variable isspace : A -> bool.

Fixpoint lstrip (s : list A) : list A :=
  match s with
  | [] => []
  | b :: r => if isspace b then lstrip r else s
  end.

(** The longest prefix without whitespace, and what follows it. *)
Fixpoint span_word (s : list A) : list A * list A :=
  match s with
  | [] => ([], [])
  | b :: r =>
      if isspace b then ([], s)
      else let (w, t) := span_word r in (b :: w, t)
  end.

(** [s.split(None, maxsplit)]: words separated by runs of whitespace;
    once [maxsplit] words are taken the remainder, stripped on the left
    only, is the last item if it is not empty. *)
Fixpoint split_ws (maxsplit : nat) (s : list A) : list (list A) :=
  match lstrip s with
  | [] => []
  | rest =>
      match maxsplit with
      | O => [rest]
      | S m => let (w, t) := span_word rest in w :: split_ws m t
      end
  end.
End SplitWhitespace.

Definition lstrip_space : bytes -> bytes := lstrip bytes_isspace.
Definition bytes_split_ws : nat -> bytes -> list bytes :=
  split_ws bytes_isspace.

(** [s.lower()] on bytes: ASCII letters only. *)
Definition byte_lower (b : byte) : byte :=
  let n := ord b in
  if ((65 <=? n) && (n <=? 90))%N then chr (n + 32) else b.

Definition bytes_lower (s : bytes) : bytes := map byte_lower s.

(** Up to the first [sep]: the part before it and the part after it. *)
Fixpoint break_at (sep : byte) (s : bytes) : option (bytes * bytes) :=
  match s with
  | [] => None
  | b :: r =>
      if Byte.eqb b sep then Some ([], r)
      else match break_at sep r with
           | Some (w, t) => Some (b :: w, t)
           | None => None
           end
  end.

(** [s.split(sep, maxsplit)] for a one-byte separator: cut at the first
    [maxsplit] separators, so at most [maxsplit + 1] items. *)
Fixpoint bytes_split (sep : byte) (maxsplit : nat) (s : bytes) : list bytes :=
  match maxsplit with
  | O => [s]
  | S m =>
      match break_at sep s with
      | None => [s]
      | Some (w, t) => w :: bytes_split sep m t
      end
  end.

(** [s.decode("latin1")] is total; [s.encode('latin1')] raises
    [UnicodeEncodeError] on a code point above U+00FF. *)
Definition decode_latin1 (s : bytes) : str := map ord s.

Fixpoint encode_latin1 (s : str) : outcome bytes :=
  match s with
  | [] => Returned []
  | c :: r =>
      if (c <? 256)%N then
        match encode_latin1 r with
        | Returned t => Returned (chr c :: t)
        | Raised e => Raised e
        end
      else Raised UnicodeEncodeError
  end.

(** *** [int(s)] for a bytes argument

    Base 10: optional whitespace, optional sign, digits with single
    underscores between them, optional whitespace. The interpreter
    refuses a literal of more digits than [sys.get_int_max_str_digits()],
    4300 unless it is configured otherwise; leading zeros count, the sign
    and the underscores do not. *)
Definition int_max_str_digits : nat := 4300.

Definition digit_value (b : byte) : option Z :=
  let n := ord b in
  if ((48 <=? n) && (n <=? 57))%N then Some (Z.of_N (n - 48)) else None.

Definition is_digit (b : byte) : bool :=
  match digit_value b with Some _ => true | None => false end.

Definition is_underscore (b : byte) : bool := Byte.eqb b "_"%byte.

Fixpoint scan_digits (s : bytes) (acc : Z) (prev_underscore : bool)
  : option (Z * bytes) :=
  match s with
  | [] => if prev_underscore then None else Some (acc, [])
  | b :: r =>
      match digit_value b with
      | Some d => scan_digits r (10 * acc + d)%Z false
      | None =>
          if is_underscore b then
            if prev_underscore then None else scan_digits r acc true
          else if prev_underscore then None else Some (acc, s)
      end
  end.

Definition int_of_bytes (s : bytes) : option Z :=
  let s1 := lstrip_space s in
  let '(sign, s2) :=
    match s1 with
    | b :: r =>
        if Byte.eqb b "+"%byte then (1%Z, r)
        else if Byte.eqb b "-"%byte then ((-1)%Z, r)
        else (1%Z, s1)
    | [] => (1%Z, [])
    end in
  match s2 with
  | [] => None
  | b :: _ =>
      match digit_value b with
      | None => None
      | Some _ =>
          match scan_digits s2 0%Z false with
          | Some (v, rest) =>
              match lstrip_space rest with
              | [] =>
                  if (List.length (filter is_digit s2)
                      <=? int_max_str_digits)%nat
                  then Some (sign * v)%Z
                  else None
              | _ :: _ => None
              end
          | None => None
          end
      end
  end.

Definition int (s : bytes) : outcome Z :=
  match int_of_bytes s with
  | Some z => Returned z
  | None => Raised ValueError
  end.

(** *** [base64.b64decode(s)]

    With the default arguments this is [binascii.a2b_base64] in its
    lenient mode: bytes outside the alphabet are skipped, a pad sequence
    that completes a quad ends the input, and a quad left incomplete at
    the end of the input is an error. *)
Definition BASE64_PAD : byte := "="%byte.

Definition table_a2b_base64 (b : byte) : option N :=
  let n := ord b in
  (if (65 <=? n) && (n <=? 90) then Some (n - 65)
   else if (97 <=? n) && (n <=? 122) then Some (n - 71)
   else if (48 <=? n) && (n <=? 57) then Some (n + 4)
   else if n =? 43 then Some 62
   else if n =? 47 then Some 63
   else None)%N.

Fixpoint a2b_base64_loop (data : bytes) (quad_pos leftchar pads : N)
    (bin_data : bytes) : option bytes :=
  match data with
  | [] => if (quad_pos =? 0)%N then Some bin_data else None
  | this_ch :: rest =>
      if Byte.eqb this_ch BASE64_PAD then
        if (2 <=? quad_pos)%N then
          if (4 <=? quad_pos + (pads + 1))%N then Some bin_data
          else a2b_base64_loop rest quad_pos leftchar (pads + 1)%N bin_data
        else a2b_base64_loop rest quad_pos leftchar pads bin_data
      else
        match table_a2b_base64 this_ch with
        | None => a2b_base64_loop rest quad_pos leftchar pads bin_data
        | Some v =>
            match quad_pos with
            | 0%N => a2b_base64_loop rest 1%N v 0%N bin_data
            | 1%N =>
                a2b_base64_loop rest 2%N (N.land v 15) 0%N
                  (bin_data ++
                   [chr (N.lor (N.shiftl leftchar 2) (N.shiftr v 4))])
            | 2%N =>
                a2b_base64_loop rest 3%N (N.land v 3) 0%N
                  (bin_data ++
                   [chr (N.lor (N.shiftl leftchar 4) (N.shiftr v 2))])
            | _ =>
                a2b_base64_loop rest 0%N 0%N 0%N
                  (bin_data ++ [chr (N.lor (N.shiftl leftchar 6) v)])
            end
        end
  end.

Definition a2b_base64 (data : bytes) : option bytes :=
  a2b_base64_loop data 0%N 0%N 0%N [].

Definition b64decode (s : bytes) : outcome bytes :=
  match a2b_base64 s with
  | Some b => Returned b
  | None => Raised BinasciiError
  end.

(** ** The credential parser *)

(** The argument of [parse_authorization_header]: the value of
    [environ.get('HTTP_AUTHORIZATION')], or a bytes object. *)
Inductive header_value : Type :=
| PyNone
| PyStr (s : str)
| PyBytes (b : bytes).

(** [not value] *)
Definition falsy (value : header_value) : bool :=
  match value with
  | PyNone => true
  | PyStr [] => true
  | PyBytes [] => true
  | _ => false
  end.

(** werkzeug's [Authorization('session', {...})]. *)
Record Authorization : Type := mkAuthorization {
  auth_type_of : str;
  username : str;
  userid : Z;
  session : str
}.

(** [if not isinstance(value, bytes): value = value.encode('latin1')]
    ([None] does not come this far). *)
Definition as_bytes (value : header_value) : outcome bytes :=
  match value with
  | PyBytes b => Returned b
  | PyStr s => encode_latin1 s
  | PyNone => Returned []
  end.

(** The first [try] block: scheme (lowered) and info. *)
Definition split_scheme (value : bytes) : outcome (bytes * bytes) :=
  (p <~ unpack2 (bytes_split_ws 1 value) ;;
   Returned (bytes_lower (fst p), snd p))%outcome.

(** The second [try] block: the three fields of a session payload. *)
Definition session_fields (auth_info : bytes) : outcome (bytes * Z * bytes) :=
  (payload <~ b64decode auth_info ;;
   f <~ unpack3 (bytes_split ":"%byte 3 payload) ;;
   let '(username, userid, session) := f in
   userid <~ int userid ;;
   Returned (username, userid, session))%outcome.

Definition parse_authorization_header (value : header_value)
  : outcome (option Authorization) :=
  if falsy value then Returned None
  else
    match as_bytes value with
    | Raised e => Raised e
    | Returned value =>
        match split_scheme value with
        | Raised e => if is_ValueError e then Returned None else Raised e
        | Returned (auth_type, auth_info) =>
            if bytes_eqb auth_type (B "session") then
              match session_fields auth_info with
              | Raised e => if is_Exception e then Returned None else Raised e
              | Returned (username, userid, session) =>
                  Returned (Some {|
                    auth_type_of := U "session";
                    username := decode_latin1 username;
                    userid := userid;
                    session := decode_latin1 session |})
              end
            else Returned None
        end
    end.

(** ** str built-ins used on header values *)

(** [Py_UNICODE_ISSPACE] *)
Definition str_isspace (c : N) : bool :=
  (((9 <=? c) && (c <=? 13)) || ((28 <=? c) && (c <=? 32))
   || (c =? 133) || (c =? 160) || (c =? 5760)
   || ((8192 <=? c) && (c <=? 8202))
   || (c =? 8232) || (c =? 8233) || (c =? 8239) || (c =? 8287)
   || (c =? 12288))%N.

Definition str_split_ws : nat -> str -> list str := split_ws str_isspace.

(** [s.lower()] on the code points a header value holds: a WSGI server
    hands header values over as native strings of code points below 256.
    Only ASCII capitals lower to ASCII letters, in this range and beyond
    it, so a comparison of the result with an ASCII word comes out as in
    Python for every str. *)
Definition code_point_lower (c : N) : N :=
  (if (65 <=? c) && (c <=? 90) then c + 32
   else if (192 <=? c) && (c <=? 222) && negb (c =? 215) then c + 32
   else c)%N.

Definition str_lower (s : str) : str := map code_point_lower s.

Definition str_eqb (a b : str) : bool :=
  if list_eq_dec N.eq_dec a b then true else false.

Arguments U : simpl never.
Arguments B : simpl never.
Arguments str_split_ws : simpl never.
Arguments str_lower : simpl never.
Arguments bytes_split_ws : simpl never.
Arguments bytes_lower : simpl never.

(** ** The world the wrappers run in *)

Definition task_id := Z.

(** What a handler gives back: [None], a werkzeug [Response], or any
    other object. *)
Inductive value : Type :=
| PyNoneV
| Response (body : string) (content_type : string)
| Object (data : string).

Definition is_Response (v : value) : bool :=
  match v with Response _ _ => true | _ => false end.

(** Every call a wrapper makes to a collaborator is logged, oldest first. *)
Inductive event : Type :=
| Sleep (seconds : float)                    (* time.sleep(seconds) *)
| TransactionStart (database_name : string) (user : option Z)
    (readonly : bool)                        (* Transaction().start(...) *)
| TransactionStop                            (* leaving the with block *)
| Rollback                                   (* transaction.rollback() *)
| Commit                                     (* transaction.commit() *)
| CallFunc                                   (* func(request, ...) *)
| RunTask (id : task_id)                     (* run_task(pool, task_id) *)
| PoolInit (database_name : string)          (* pool.init() *)
| LogDebug                                   (* logger.debug(...) *)
| LogError                                   (* logger.error(...) *)
| CheckApplication (key : str) (name : string)
                                             (* UserApplication.check *)
| SetUser (user : Z)                         (* transaction.set_user *)
| ResetUser
| CheckAccessEnter                           (* check_access() *)
| CheckAccessExit.

Record world : Type := mkWorld {
  log : list event;
  tasks : list task_id;      (* transaction.tasks of the open transaction *)
  ncalls : nat               (* how often the wrapped function was called *)
}.

Definition initial : world := {| log := []; tasks := []; ncalls := 0 |}.

(** A computation changes the world and returns or raises. *)
Definition M (A : Type) : Type := world -> outcome A * world.

Definition ret {A} (a : A) : M A := fun w => (Returned a, w).

Definition raise {A} (e : exn) : M A := fun w => (Raised e, w).

Definition bind {A B} (c : M A) (k : A -> M B) : M B :=
  fun w =>
    match c w with
    | (Returned a, w1) => k a w1
    | (Raised e, w1) => (Raised e, w1)
    end.

Definition lift {A} (o : outcome A) : M A := fun w => (o, w).

Declare Scope py_scope.
Delimit Scope py_scope with py.
Notation "x <- c ;; k" := (bind c (fun x => k))
  (at level 61, c at next level, right associativity) : py_scope.
Notation "c ;; k" := (bind c (fun _ => k))
  (at level 61, right associativity) : py_scope.
Local Open Scope py_scope.

Definition emit (ev : event) : M unit :=
  fun w => (Returned tt,
            {| log := log w ++ [ev]; tasks := tasks w; ncalls := ncalls w |}).

(** [try: body except ...]: [handler e] is the matching clause, if any. *)
Definition try_except {A} (body : M A) (handler : exn -> option (M A)) : M A :=
  fun w =>
    match body w with
    | (Returned a, w1) => (Returned a, w1)
    | (Raised e, w1) =>
        match handler e with
        | Some h => h w1
        | None => (Raised e, w1)
        end
    end.

(** [with cm: body]: [exit] runs however [body] ends, and does not
    swallow what [body] raised. *)
Definition with_ {A} (enter : M unit) (exit : M unit) (body : M A) : M A :=
  fun w =>
    match enter w with
    | (Raised e, w1) => (Raised e, w1)
    | (Returned _, w1) =>
        match body w1 with
        | (r, w2) =>
            match exit w2 with
            | (Returned _, w3) => (r, w3)
            | (Raised e, w3) => (Raised e, w3)
            end
        end
    end.

(** How a loop body ends: it falls through or says [continue], or the
    function returns from inside the loop. *)
Inductive flow (A : Type) : Type :=
| Next
| Return (a : A).
Arguments Next {A}.

Fixpoint for_ {I A} (items : list I) (body : I -> M (flow A)) : M (flow A) :=
  match items with
  | [] => ret Next
  | i :: rest =>
      r <- body i ;;
      match r with
      | Next => for_ rest body
      | Return a => ret (Return a)
      end
  end.

(** [range(start, -1, -1)]: start, start - 1, ..., 0; empty below 0. *)
Definition range_down (start : Z) : list Z :=
  map (fun k => (start - Z.of_nat k)%Z) (seq 0 (Z.to_nat (start + 1))).

(** [werkzeug.exceptions.abort] *)
Definition abort {A} (code : Z) (description : option exn) : M A :=
  raise (HTTPException code description).

(** [l.pop()]: the last item and the list without it. *)
Definition pop {A} (l : list A) : option (list A * A) :=
  match rev l with
  | [] => None
  | x :: r => Some (rev r, x)
  end.

(** Modelled from the spec: the [Transaction] class is not in this
    module. A transaction handle owns the queue of pending task ids; a
    handle is created when an attempt starts, with an empty queue, and
    leaving the [with] block ends it without touching the queue. *)
Definition transaction_start (database_name : string) (user : option Z)
    (readonly : bool) : M unit :=
  fun w => (Returned tt,
            {| log := log w ++ [TransactionStart database_name user readonly];
               tasks := [];
               ncalls := ncalls w |}).

Definition transaction_stop : M unit := emit TransactionStop.
Definition transaction_rollback : M unit := emit Rollback.
Definition transaction_commit : M unit := emit Commit.

(** The wrapped function. A handler has side effects, so each call may
    behave differently: [func n] is what the call number [n] (from 0)
    does, the task ids it queues on the open transaction, in order, and
    how it ends. *)
Definition handler : Type := nat -> list task_id * outcome value.

Definition call_func (func : handler) : M value :=
  fun w =>
    let '(queued, r) := func (ncalls w) in
    (r, {| log := log w ++ [CallFunc];
           tasks := tasks w ++ queued;
           ncalls := S (ncalls w) |}).

(** The dict [Request.context] builds. *)
Record Context : Type := mkContext {
  ctx_remote_addr : option str;
  ctx_http_host : option str;
  ctx_scheme : str;
  ctx_is_secure : bool
}.

(** What the wrappers read of a request: the HTTP method, [rpc_method]
    ([None] for a plain request), the headers as an ordered list of
    (name, value), and what reading the properties [context] and
    [user_id] gives. These two are computed from the WSGI environ and,
    for [user_id], by the identity service (see [RequestClass] below):
    reading one may raise. *)
Record Request : Type := mkRequest {
  method : string;
  rpc_method : option string;
  headers : list (string * str);
  context : outcome Context;
  user_id : outcome (option Z)
}.

(** [if request.rpc_method] *)
Definition is_rpc (request : Request) : bool :=
  match rpc_method request with
  | None => false
  | Some EmptyString => false
  | Some _ => true
  end.

Record Pool : Type := mkPool { database_name : string }.

(** ** with_transaction *)

(** The [user] argument of the decorator: a user id, or ['request'] for
    the user the request authenticates. *)
Inductive user_arg : Type :=
| UserOfRequest
| UserId (id : Z).

Definition mutating_methods : list string :=
  ["POST"; "PUT"; "DELETE"; "PATCH"]%string.

Module with_transaction.
Section Decorator.
(** [config.getint('database', 'retry')] *)
Variable retry : Z.
(** [trytond.worker.run_task], which is not in this module: what running
    a task raises, if anything. *)
Variable run_task : task_id -> option exn.
(** The decorator's arguments and the function it wraps. (The [context]
    argument is a dict, copied and passed along to the transaction with
    the context of the request added; it plays no other part and is left
    out.) *)
Variable readonly : option bool.
Variable user : user_arg.
Variable func : handler.

Definition run_task_call (pool : Pool) (id : task_id) : M unit :=
  fun w =>
    let w1 := {| log := log w ++ [RunTask id];
                 tasks := tasks w; ncalls := ncalls w |} in
    match run_task id with
    | None => (Returned tt, w1)
    | Some e => (Raised e, w1)
    end.

(** [0.02 * (retry - count)], the argument of [time.sleep]: the product
    of two floats, the int being converted first. *)
Definition backoff (count : Z) : float :=
  float_mul float_0_02 (float_of_int (retry - count)).

Definition readonly_of (request : Request) : bool :=
  match readonly with
  | Some b => b
  | None =>
      if existsb (String.eqb (method request)) mutating_methods
      then false else true
  end.

(** [user_ = request.user_id if user == 'request' else user]: the read
    of the property may raise. *)
Definition user_of (request : Request) : outcome (option Z) :=
  match user with
  | UserOfRequest => user_id request
  | UserId id => Returned (Some id)
  end.

(** What the wrapper has read when it reaches the loop: the context of
    the request, then the user of the transaction. *)
Definition transaction_user (request : Request) : outcome (option Z) :=
  (context_ <~ context request ;; user_of request)%outcome.

(** [while transaction.tasks: task_id = transaction.tasks.pop();
    run_task(pool, task_id)] *)
Function drain (pool : Pool) (w : world)
    {measure (fun w => List.length (tasks w)) w} : outcome unit * world :=
  match pop (tasks w) with
  | None => (Returned tt, w)
  | Some (rest, id) =>
      match run_task_call pool id
              {| log := log w; tasks := rest; ncalls := ncalls w |} with
      | (Returned _, w1) => drain pool w1
      | (Raised e, w1) => (Raised e, w1)
      end
  end.
Proof.
  intros pool w p rest id Hp Hpop o w1 u Ho Hrun.
  unfold run_task_call in Hrun.
  assert (Hw1 : tasks w1 = rest)
    by (destruct (run_task id); inversion Hrun; reflexivity).
  rewrite Hw1. unfold pop in Hpop.
  destruct (rev (tasks w)) as [|x r] eqn:Hrev; [discriminate|].
  inversion Hpop; subst.
  rewrite <- (length_rev (tasks w)), Hrev, length_rev. simpl. lia.
Defined.

(** One turn of [for count in range(retry, -1, -1)]. *)
Definition attempt (request : Request) (pool : Pool) (user_ : option Z)
    (count : Z) : M (flow value) :=
  (if negb (count =? retry)%Z then emit (Sleep (backoff count))
   else ret tt) ;;
  r <- with_
         (transaction_start (database_name pool) user_
            (readonly_of request))
         transaction_stop
         (r <- try_except
                 (result <- call_func func ;; ret (Return result))
                 (fun e =>
                    if is_DatabaseOperationalError e then
                      Some (if negb (count =? 0)%Z
                               && negb (readonly_of request)
                            then transaction_rollback ;; ret Next
                            else raise e)
                    else None) ;;
          match r with
          | Next => ret Next
          | Return result => transaction_commit ;; ret (Return result)
          end) ;;
  match r with
  | Next => ret Next
  | Return result => drain pool ;; ret (Return result)
  end.

(** The context and the user are read before the loop; falling off the
    end of the loop returns [None]. *)
Definition wrapper (request : Request) (pool : Pool) : M value :=
  context_ <- lift (context request) ;;
  user_ <- lift (user_of request) ;;
  r <- for_ (range_down retry) (attempt request pool user_) ;;
  match r with
  | Next => ret PyNoneV
  | Return result => ret result
  end.
End Decorator.
End with_transaction.

(** ** with_pool *)

Module with_pool.
Section Decorator.
(** [Pool.database_list()] *)
Variable database_list : list string.
Variable func : handler.

Definition wrapper (request : Request) (database_name : string) : M value :=
  let pool := mkPool database_name in
  (if negb (existsb (String.eqb database_name) database_list) then
     with_ (transaction_start database_name (Some 0%Z) true)
       transaction_stop
       (emit (PoolInit database_name))
   else ret tt) ;;
  try_except (call_func func)
    (fun e =>
       if is_HTTPException e then
         Some (emit LogDebug ;; raise e)
       else if is_UserError e || is_UserWarning e then
         Some (emit LogDebug ;;
               if is_rpc request then raise e
               else abort HTTPStatus.BAD_REQUEST (Some e))
       else if is_Exception e then
         Some (emit LogError ;;
               if is_rpc request then raise e
               else abort HTTPStatus.INTERNAL_SERVER_ERROR (Some e))
       else None).
End Decorator.
End with_pool.

(** ** user_application *)

(** A record of [res.user.application]: the user it belongs to. *)
Record Application : Type := mkApplication { application_user : Z }.

Definition ascii_lower (c : ascii) : ascii :=
  let n := N_of_ascii c in
  if ((65 <=? n) && (n <=? 90))%N then ascii_of_N (n + 32) else c.

Fixpoint string_lower (s : string) : string :=
  match s with
  | EmptyString => EmptyString
  | String c r => String (ascii_lower c) (string_lower r)
  end.

(** [headers[key]]: header names match whatever their case; a name that
    is not there is a [KeyError], as for any mapping (what the error
    carries is the library's affair). *)
Fixpoint headers_get (hs : list (string * str)) (key : string) : option str :=
  match hs with
  | [] => None
  | (name, v) :: rest =>
      if String.eqb (string_lower name) (string_lower key) then Some v
      else headers_get rest key
  end.

Definition headers_getitem (hs : list (string * str)) (key : string) : M str :=
  match headers_get hs key with
  | Some v => ret v
  | None => raise (KeyError key)
  end.

Module user_application.
Section Decorator.
(** [UserApplication.check(key, name)], of the model
    [res.user.application]: the application registered under the key
    for the name, if there is one. *)
Variable check : str -> string -> option Application.
(** [json.dumps(response, cls=JSONEncoder)]: the text, or what the
    encoder raises on a value it cannot serialise. *)
Variable dumps : value -> outcome string.
(** The decorator's arguments and the function it wraps. *)
Variable name : string.
Variable json : bool.
Variable func : handler.

Definition UserApplication_check (key : str) : M (option Application) :=
  emit (CheckApplication key name) ;; ret (check key name).

Definition wrapper (request : Request) : M value :=
  authorization <- headers_getitem (headers request) "Authorization" ;;
  p <- try_except
         (lift (p <~ unpack2 (str_split_ws 1 authorization) ;;
                Returned (str_lower (fst p), snd p))%outcome)
         (fun e =>
            if is_ValueError e then Some (abort HTTPStatus.UNAUTHORIZED None)
            else None) ;;
  let '(auth_type, auth_info) := p in
  (if negb (str_eqb auth_type (U "bearer"))
   then abort HTTPStatus.FORBIDDEN None else ret tt) ;;
  application <- UserApplication_check auth_info ;;
  match application with
  | None => abort HTTPStatus.FORBIDDEN None
  | Some application =>
      response <- with_ (emit (SetUser (application_user application)))
                    (emit ResetUser)
                    (with_ (emit CheckAccessEnter) (emit CheckAccessExit)
                       (call_func func)) ;;
      if negb (is_Response response) && json
      then body <- lift (dumps response) ;;
           ret (Response body "application/json")
      else ret response
  end.
End Decorator.
End user_application.

(** ** with_pool around any wrapped function *)

(** [with_pool] as above, [inner request pool] being what
    [func(request, pool, ...)] does: a handler called directly, or the
    wrapper of another decorator. *)
Definition with_pool_around (database_list : list string)
    (inner : Request -> Pool -> M value) (request : Request)
    (database_name : string) : M value :=
  let pool := mkPool database_name in
  (if negb (existsb (String.eqb database_name) database_list) then
     with_ (transaction_start database_name (Some 0%Z) true)
       transaction_stop
       (emit (PoolInit database_name))
   else ret tt) ;;
  try_except (inner request pool)
    (fun e =>
       if is_HTTPException e then
         Some (emit LogDebug ;; raise e)
       else if is_UserError e || is_UserWarning e then
         Some (emit LogDebug ;;
               if is_rpc request then raise e
               else abort HTTPStatus.BAD_REQUEST (Some e))
       else if is_Exception e then
         Some (emit LogError ;;
               if is_rpc request then raise e
               else abort HTTPStatus.INTERNAL_SERVER_ERROR (Some e))
       else None).

(** The world in which [with_pool] calls the wrapped function: the pool
    was initialised, in a transaction of its own, if the database was not
    listed. *)
Definition pool_initialised (database_list : list string)
    (database_name : string) (w : world) : world :=
  if existsb (String.eqb database_name) database_list then w
  else {| log := log w
                 ++ [TransactionStart database_name (Some 0%Z) true;
                     PoolInit database_name; TransactionStop];
          tasks := [];
          ncalls := ncalls w |}.

(** ** The Request class *)

(** [trytond.exceptions.RateLimitException], a subclass of [Exception]
    of its own. *)
Definition RateLimitException : exn := ExceptionOther "RateLimitException".

Definition is_RateLimitException (e : exn) : bool :=
  match e with
  | ExceptionOther name => String.eqb name "RateLimitException"
  | _ => false
  end.

(** A credential as the properties of the request read it: a dict with
    a type, where [get] gives [None] for a key that is not there. A
    credential that werkzeug or the parser builds holds keys, so it is
    true in a test. *)
Record Credential : Type := mkCredential {
  cred_type : str;
  cred_username : option str;
  cred_userid : option Z;
  cred_session : option str;
  cred_password : option str
}.

Definition credential_of (a : Authorization) : Credential :=
  {| cred_type := auth_type_of a;
     cred_username := Some (username a);
     cred_userid := Some (userid a);
     cred_session := Some (session a);
     cred_password := None |}.

Inductive url_value : Type :=
| UrlStr (s : str)
| UrlBytes (b : bytes).

(** [d.get(key)] on a dict given by its items. *)
Fixpoint dict_get (d : list (string * string)) (key : string)
  : option string :=
  match d with
  | [] => None
  | (k, v) :: rest => if String.eqb k key then Some v else dict_get rest key
  end.

(** [str(z)] *)
Definition str_of_Z (z : Z) : str := U (NilZero.string_of_int (Z.to_int z)).

(** ["%s" % x] for [x] a str or [None]. *)
Definition percent_s (x : option str) : str :=
  match x with
  | Some s => s
  | None => U "None"
  end.

(** [" ".join(items)] *)
Fixpoint join_space (items : list str) : str :=
  match items with
  | [] => []
  | [s] => s
  | s :: rest => s ++ U " " ++ join_space rest
  end.

(** [filter(None, args)]: the items that are neither [None] nor empty. *)
Fixpoint filter_true (args : list (option str)) : list str :=
  match args with
  | [] => []
  | Some (c :: s) :: rest => (c :: s) :: filter_true rest
  | _ :: rest => filter_true rest
  end.

Module RequestClass.

(** What a request object holds, and what the attributes werkzeug
    computes from the WSGI environ give when they are read: a read may
    raise on an environ that is not valid. *)
Record t : Type := mk {
  class_name : str;                             (* self.__class__.__name__ *)
  view_args : option (list (string * string));
  super_authorization : outcome (option Credential);
                                   (* werkzeug's Request.authorization *)
  http_authorization : header_value;
                                   (* environ.get('HTTP_AUTHORIZATION') *)
  url : outcome (option url_value);
  url_decode : bytes -> outcome str;      (* b.decode(self.url_charset) *)
  remote_addr : outcome (option str);
  http_host : option str;                  (* environ.get('HTTP_HOST') *)
  scheme : outcome str;
  is_secure : outcome bool;
  method : outcome str;
  rpc_method : outcome (option str)
}.

(** The property [authorization]: werkzeug's credential if it finds one,
    else what the parser makes of the header. *)
Definition authorization (self : t) : outcome (option Credential) :=
  (authorization <~ super_authorization self ;;
   match authorization with
   | None =>
       parsed <~ parse_authorization_header (http_authorization self) ;;
       Returned (option_map credential_of parsed)
   | Some a => Returned (Some a)
   end)%outcome.

(** The property [context]. *)
Definition context (self : t) : outcome Context :=
  (remote_addr <~ remote_addr self ;;
   scheme <~ scheme self ;;
   is_secure <~ is_secure self ;;
   Returned {| ctx_remote_addr := remote_addr;
               ctx_http_host := http_host self;
               ctx_scheme := scheme;
               ctx_is_secure := is_secure |})%outcome.

Section Security.
(** [trytond.security], which is not in this module: [check] for a
    session, [login] (always with [cache=False]) for another credential. *)
Variable security_check :
  string -> option Z -> option str -> Context -> outcome (option Z).
Variable security_login :
  string -> option str -> Credential -> Context -> outcome (option Z).

(** The property [user_id]. *)
Definition user_id (self : t) : outcome (option Z) :=
  match view_args self with
  | None => Returned None
  | Some [] => Returned None
  | Some args =>
      match dict_get args "database_name" with
      | None => Returned None
      | Some EmptyString => Returned None
      | Some database_name =>
          (auth <~ authorization self ;;
           match auth with
           | None => Returned None
           | Some auth =>
               context <~ context self ;;
               if str_eqb (cred_type auth) (U "session") then
                 security_check database_name (cred_userid auth)
                   (cred_session auth) context
               else
                 match security_login database_name (cred_username auth)
                         auth context with
                 | Returned user_id => Returned user_id
                 | Raised e =>
                     if is_RateLimitException e
                     then Raised (HTTPException
                                    HTTPStatus.TOO_MANY_REQUESTS None)
                     else Raised e
                 end
           end)%outcome
      end
  end.
End Security.

(** [__repr__]. The items of [args] are gathered until a read raises;
    [None] stands for an item that is [None]. *)
Definition repr_step {A} (args : list (option str)) (read : outcome A)
    (k : A -> list (option str) * option exn)
  : list (option str) * option exn :=
  match read with
  | Returned a => k a
  | Raised e => (args, Some e)
  end.

Definition repr_args (self : t) : list (option str) * option exn :=
  repr_step [] (url self) (fun u =>
  repr_step []
    match u with
    | None => Returned None
    | Some (UrlStr s) => Returned (Some s)
    | Some (UrlBytes b) =>
        match url_decode self b with
        | Returned s => Returned (Some s)
        | Raised e => Raised e
        end
    end (fun url =>
  repr_step [] (authorization self) (fun auth =>
  repr_step [] (remote_addr self) (fun remote_addr =>
  let who :=
    match auth with
    | Some auth =>
        Some (match cred_userid auth with
              | Some userid => str_of_Z userid
              | None => percent_s (cred_username auth)
              end ++ U "@" ++ percent_s remote_addr)
    | None => remote_addr
    end in
  let args := [who; Some (U "'" ++ percent_s url ++ U "'")] in
  repr_step args (method self) (fun method =>
  let args := args ++ [Some (U "[" ++ method ++ U "]")] in
  repr_step args (rpc_method self) (fun rpc_method =>
  (args ++ [Some match rpc_method with
                 | Some (c :: s) => c :: s
                 | _ => []
                 end], None))))))).

Definition repr (self : t) : outcome str :=
  let '(args, raised) := repr_args self in
  let finish args :=
    U "<" ++ class_name self ++ U " " ++ join_space (filter_true args)
    ++ U ">" in
  match raised with
  | None => Returned (finish args)
  | Some e =>
      if is_Exception e
      then Returned (finish (args ++ [Some (U "(invalid WSGI environ)")]))
      else Raised e
  end.

End RequestClass.

(** ** Sample inputs *)

Definition sample_pool : Pool := mkPool "tryton".

(** The context of a request from the local host, and requests that
    carry no credential. *)
Definition local_context : Context :=
  mkContext (Some (U "127.0.0.1")) (Some (U "localhost")) (U "http") false.

Definition post_request : Request :=
  mkRequest "POST" None [] (Returned local_context) (Returned None).

Definition get_request : Request :=
  mkRequest "GET" None [] (Returned local_context) (Returned None).

Definition bearer_request : Request :=
  mkRequest "GET" None [("Authorization"%string, U "Bearer s3cr3t")]
    (Returned local_context) (Returned None).

Definition basic_request : Request :=
  mkRequest "GET" None [("Authorization"%string, U "Basic dXNlcjpwdw==")]
    (Returned local_context) (Returned None).

Definition rpc_request : Request :=
  mkRequest "POST" (Some "model.party.party.read"%string) []
    (Returned local_context) (Returned None).

Definition scheme_only_request : Request :=
  mkRequest "GET" None [("Authorization"%string, U "Basic")]
    (Returned local_context) (Returned None).

Definition no_task_fails : task_id -> option exn := fun _ => None.

(** A worker that fails on task 2. *)
Definition task_two_fails : task_id -> option exn :=
  fun t => if (t =? 2)%Z then Some (ExceptionOther "TaskError") else None.

(** A handler that queues three tasks and returns. *)
Definition queues_three : handler :=
  fun _ => ([1%Z; 2%Z; 3%Z], Returned (Object "done")).

(** A handler that finds the database locked at every call. *)
Definition always_busy : handler :=
  fun _ => ([], Raised (DatabaseOperationalError "database is locked")).

(** A handler that finds the database locked once, then queues three
    tasks and returns. *)
Definition busy_then_done : handler :=
  fun n =>
    match n with
    | O => ([9%Z], Raised (DatabaseOperationalError "database is locked"))
    | S _ => ([1%Z; 2%Z; 3%Z], Returned (Object "done"))
    end.

(** A handler that fails for a reason of its own. *)
Definition broken : handler :=
  fun _ => ([4%Z], Raised (ExceptionOther "ZeroDivisionError")).

Definition invalid : handler :=
  fun _ => ([], Raised (UserError "The code is required.")).

Definition no_application : str -> string -> option Application :=
  fun _ _ => None.

Definition to_json : value -> outcome string :=
  fun _ => Returned "null"%string.

(** An encoder that cannot serialise what it is given. *)
Definition not_serializable : value -> outcome string :=
  fun _ => Raised (ExceptionOther "TypeError").

(** A request routed to the database [tryton], with the header and the
    credential of werkzeug given. *)
Definition routed_request (header : header_value)
    (werkzeug : option Credential) : RequestClass.t :=
  RequestClass.mk (U "Request")
    (Some [("database_name", "tryton")]%string)
    (Returned werkzeug) header
    (Returned (Some (UrlStr (U "http://localhost/tryton/"))))
    (fun b => Returned (decode_latin1 b))
    (Returned (Some (U "127.0.0.1"))) (Some (U "localhost"))
    (Returned (U "http")) (Returned false)
    (Returned (U "POST")) (Returned None).

(** A request whose environ is too poor for its URL to be read. *)
Definition unreadable_request : RequestClass.t :=
  RequestClass.mk (U "Request") None (Returned None) PyNone
    (Raised (KeyError "wsgi.url_scheme"))
    (fun b => Returned (decode_latin1 b)) (Returned None) None
    (Returned (U "http")) (Returned false) (Returned (U "GET"))
    (Returned None).

Definition basic_credential (password : str) : Credential :=
  mkCredential (U "basic") (Some (U "admin")) None None (Some password).

(** An identity service that knows session [token] of user 123 and is
    out of patience with logins. *)
Definition sample_check (database_name : string) (userid : option Z)
    (session : option str) (context : Context) : outcome (option Z) :=
  match userid, session with
  | Some 123%Z, Some s =>
      if str_eqb s (U "token") then Returned (Some 123%Z)
      else Returned None
  | _, _ => Returned None
  end.

Definition sample_login (database_name : string) (username : option str)
    (auth : Credential) (context : Context) : outcome (option Z) :=
  Raised RateLimitException.

(** A POST request of the class, as the wrappers read it, the identity
    service being [sample_check] and [sample_login]. *)
Definition posted (self : RequestClass.t) : Request :=
  mkRequest "POST" None [] (RequestClass.context self)
    (RequestClass.user_id sample_check sample_login self).

(** The request of user 123, who presents a session, and the request of
    somebody who presents a password once too often. *)
Definition session_request : Request :=
  posted (routed_request (PyStr (U "session dXNlcjoxMjM6dG9rZW4=")) None).

Definition limited_request : Request :=
  posted (routed_request PyNone (Some (basic_credential (U "secret")))).

(** ** Reading a log *)

Definition is_Commit (ev : event) : bool :=
  match ev with Commit => true | _ => false end.

Definition is_RunTask (ev : event) : bool :=
  match ev with RunTask _ => true | _ => false end.



(** Nothing was committed and no task was run. *)
Definition uncommitted (l : list event) : Prop :=
  Forall (fun ev => is_Commit ev = false /\ is_RunTask ev = false) l.

(** The sleeps made before each transaction start, one list per start:
    the state is the lists of the starts seen so far and the sleeps since
    the last one. *)
Definition sleep_step (st : list (list float) * list float) (ev : event)
  : list (list float) * list float :=
  match ev with
  | Sleep seconds => (fst st, snd st ++ [seconds])
  | TransactionStart _ _ _ => (fst st ++ [snd st], [])
  | _ => st
  end.

Definition sleeps_before (l : list event) : list (list float) :=
  fst (fold_left sleep_step l ([], [])).

(** A call of the handler that ends in a transient database failure. *)
Definition transient_failure (r : list task_id * outcome value) : Prop :=
  exists e, snd r = Raised e /\ is_DatabaseOperationalError e = true.

(** Counting in a log. *)
Definition is_Start (ev : event) : bool :=
  match ev with TransactionStart _ _ _ => true | _ => false end.

Definition is_Stop (ev : event) : bool :=
  match ev with TransactionStop => true | _ => false end.

Definition is_Rollback (ev : event) : bool :=
  match ev with Rollback => true | _ => false end.

Definition is_Sleep (ev : event) : bool :=
  match ev with Sleep _ => true | _ => false end.

Definition count (p : event -> bool) (l : list event) : nat :=
  List.length (filter p l).

(** * Properties *)

(** ** The model at work *)

Example parse_session_token :
  parse_authorization_header (PyBytes (B "Session  dXNlcjoxMjM6dG9rZW4="))
  = Returned (Some {| auth_type_of := U "session"; username := U "user";
                      userid := 123; session := U "token" |}).
Proof. vm_compute. reflexivity. Qed.

Example parse_basic_is_left_to_werkzeug :
  parse_authorization_header (PyStr (U "Basic dXNlcjpwdw==")) = Returned None.
Proof. vm_compute. reflexivity. Qed.

(** A str beyond Latin-1, which no WSGI server hands over, does not
    encode: the error leaves the parser. *)
Example parse_str_beyond_latin1 :
  parse_authorization_header (PyStr [115; 8364]%N) = Raised UnicodeEncodeError.
Proof. reflexivity. Qed.

Example int_of_bytes_samples :
  int_of_bytes (B " -1_2 ") = Some (-12)%Z
  /\ int_of_bytes (B "007") = Some 7%Z
  /\ int_of_bytes (B "1__2") = None
  /\ int_of_bytes (B "12a") = None
  /\ int_of_bytes (B "") = None.
Proof. repeat split; reflexivity. Qed.

(** The cap on the digits of an int literal: 4300 digits are read, one
    more is refused, and an underscore is not counted. *)
Example int_of_bytes_digit_cap :
  int_of_bytes (repeat "1"%byte 4300) <> None
  /\ int_of_bytes (repeat "1"%byte 4301) = None
  /\ int_of_bytes ("1"%byte :: "_"%byte :: repeat "0"%byte 4299) <> None.
Proof.
  split; [vm_compute; discriminate|].
  split; [vm_compute; reflexivity|vm_compute; discriminate].
Qed.

(** The double written [0.02] is the quotient of 1 by 50, rounded; three
    times it is the double written [0.06]. *)
Example float_0_02_is_the_nearest_double :
  SFdiv 53 1024 (float_of_int 1) (float_of_int 50) = float_0_02
  /\ float_mul float_0_02 (float_of_int 3)
     = SFdiv 53 1024 (float_of_int 6) (float_of_int 100).
Proof. split; vm_compute; reflexivity. Qed.

Example b64decode_samples :
  a2b_base64 (B "dXNlcjoxMjM6dG9rZW4=") = Some (B "user:123:token")
  /\ a2b_base64 (B "dXNl cjox!") = Some (B "user:1")
  /\ a2b_base64 (B "dXNlc") = None
  /\ a2b_base64 (B "dXNlcg=") = None.
Proof. repeat split; reflexivity. Qed.

(** One retried attempt, then a success that queued tasks 1, 2, 3. *)
Example run_busy_then_done :
  with_transaction.wrapper 2 no_task_fails None (UserId 0) busy_then_done
    post_request sample_pool initial
  = (Returned (Object "done"),
     {| log := [TransactionStart "tryton" (Some 0%Z) false; CallFunc;
                Rollback; TransactionStop;
                Sleep (S754_finite false 5764607523034235 (-58));
                TransactionStart "tryton" (Some 0%Z) false; CallFunc;
                Commit; TransactionStop;
                RunTask 3%Z; RunTask 2%Z; RunTask 1%Z];
        tasks := [];
        ncalls := 2 |}).
Proof. vm_compute. reflexivity. Qed.

(** ** Lists and logs *)

Lemma pop_spec {A} (l rest : list A) (x : A) :
  pop l = Some (rest, x) -> rev l = x :: rev rest.
Proof.
  unfold pop. destruct (rev l) as [|y r] eqn:E; [discriminate|].
  intros H. inversion H; subst. now rewrite rev_involutive.
Qed.

Lemma pop_none {A} (l : list A) : pop l = None -> l = [].
Proof.
  unfold pop. destruct (rev l) as [|y r] eqn:E; [|discriminate].
  intros _. rewrite <- (rev_involutive l), E. reflexivity.
Qed.

Lemma range_down_neg (c : Z) : (c < 0)%Z -> range_down c = [].
Proof.
  intros H. unfold range_down.
  replace (Z.to_nat (c + 1)) with 0%nat by lia. reflexivity.
Qed.

Lemma range_down_step (c : Z) :
  (0 <= c)%Z -> range_down c = c :: range_down (c - 1).
Proof.
  intros H. unfold range_down.
  replace (Z.to_nat (c + 1)) with (S (Z.to_nat (c - 1 + 1))) by lia.
  cbn [seq map]. f_equal; [lia|].
  rewrite <- seq_shift, map_map. apply map_ext. intros k. lia.
Qed.

Lemma range_down_length (c : Z) :
  List.length (range_down c) = Z.to_nat (c + 1).
Proof. unfold range_down. now rewrite length_map, length_seq. Qed.

(** ** The draining loop *)

Section Drain.
Variable run_task : task_id -> option exn.

(** Draining runs tasks from the end of the queue, stops at the first
    one that raises, logs nothing else and calls no handler. *)
Lemma drain_spec (pool : Pool) (w : world) :
  exists ran rest,
    rev (tasks w) = ran ++ rest
    /\ log (snd (with_transaction.drain run_task pool w))
       = log w ++ map RunTask ran
    /\ ncalls (snd (with_transaction.drain run_task pool w)) = ncalls w
    /\ ((forall t, In t (tasks w) -> run_task t = None) ->
        rest = []
        /\ fst (with_transaction.drain run_task pool w) = Returned tt).
Proof.
  functional induction (with_transaction.drain run_task pool w);
    try (match goal with
         | Hpop : pop _ = Some _ |- _ =>
             pose proof (pop_spec _ Hpop) as Hrev
         end;
         match goal with
         | Hrun : with_transaction.run_task_call _ _ _ _ = _ |- _ =>
             unfold with_transaction.run_task_call in Hrun; cbn in Hrun;
             destruct (run_task id) eqn:Hid; try discriminate Hrun;
             injection Hrun as ? Hw1; subst w1
         end).
  - (* the queue is empty *)
    match goal with Hpop : pop _ = None |- _ => apply pop_none in Hpop;
      rewrite Hpop end.
    exists [], []. cbn. rewrite app_nil_r. auto.
  - (* the task ran: the loop goes on *)
    cbn in IHp. destruct IHp as (ran & rest' & Hr & Hlog & Hn & Hok).
    exists (id :: ran), rest'. rewrite Hrev, Hr, Hlog, Hn, <- app_assoc.
    split; [reflexivity|]. split; [reflexivity|]. split; [reflexivity|].
    intros Hall. apply Hok. intros t Ht. apply Hall.
    apply in_rev. rewrite Hrev. right. now apply in_rev in Ht.
  - (* the task raised: the loop is left *)
    exists [id], (rev rest). cbn.
    split; [exact Hrev|]. split; [reflexivity|]. split; [reflexivity|].
    intros Hall. exfalso. rewrite Hall in Hid; [discriminate|].
    apply in_rev. rewrite Hrev. now left.
Qed.
End Drain.

(** ** The attempt loop of with_transaction *)

Section Executor.
Variable retry : Z.
Variable run_task : task_id -> option exn.
Variable readonly : option bool.
Variable user : user_arg.
Variable func : handler.
Variable request : Request.
Variable pool : Pool.

Local Abbreviation ro := (with_transaction.readonly_of readonly request).
Local Abbreviation drain := (with_transaction.drain run_task pool).
Local Abbreviation backoff := (with_transaction.backoff retry).
Local Abbreviation pre count :=
  (if (count =? retry)%Z then [] else [Sleep (backoff count)]).
Local Abbreviation start_as u := (TransactionStart (database_name pool) u ro).
(** The events of the retried calls [first], ..., [n - 1]. *)
Local Abbreviation retried_as u first n :=
  (flat_map
     (fun j : nat =>
        pre (retry - Z.of_nat j)
        ++ [start_as u; CallFunc; Rollback; TransactionStop])
     (seq first (n - first))).
(** The reads before the loop returned, [u] being the user. *)
Local Abbreviation entered u :=
  (with_transaction.transaction_user user request = Returned u).
Local Abbreviation run :=
  (with_transaction.wrapper retry run_task readonly user func request pool
     initial).

(** *** The loop, for the user [user_] *)

Section Loop.
Variable user_ : option Z.

Local Abbreviation attempt :=
  (with_transaction.attempt retry run_task readonly func request pool user_).
Local Abbreviation start := (start_as user_).
Local Abbreviation retried first n := (retried_as user_ first n).

(** One attempt, in closed form. *)
Lemma attempt_eq (count : Z) (w : world) :
  attempt count w =
  let after evs :=
    {| log := log w ++ pre count ++ start :: CallFunc :: evs;
       tasks := fst (func (ncalls w));
       ncalls := S (ncalls w) |} in
  match snd (func (ncalls w)) with
  | Returned result =>
      match drain (after [Commit; TransactionStop]) with
      | (Returned _, w2) => (Returned (Return result), w2)
      | (Raised e, w2) => (Raised e, w2)
      end
  | Raised e =>
      if is_DatabaseOperationalError e && negb (count =? 0)%Z && negb ro
      then (Returned Next, after [Rollback; TransactionStop])
      else (Raised e, after [TransactionStop])
  end.
Proof.
  unfold with_transaction.attempt, with_, try_except, bind, call_func,
    transaction_start, transaction_stop, transaction_rollback,
    transaction_commit, emit, ret, raise.
  destruct (count =? retry)%Z; cbn;
    destruct (func (ncalls w)) as [queued [result|e]]; cbn;
    try (destruct (is_DatabaseOperationalError e); cbn;
         try (destruct (count =? 0)%Z; cbn; try destruct ro; cbn));
    repeat rewrite <- app_assoc; cbn; try reflexivity;
    destruct (drain _) as [[u|e'] w2]; reflexivity.
Qed.

Lemma for_cons {I A} (i : I) (rest : list I) (body : I -> M (flow A))
    (w : world) :
  for_ (i :: rest) body w =
  match body i w with
  | (Returned Next, w1) => for_ rest body w1
  | (Returned (Return a), w1) => (Returned (Return a), w1)
  | (Raised e, w1) => (Raised e, w1)
  end.
Proof.
  cbn [for_]. unfold bind, ret.
  destruct (body i w) as [[[|a]|e] w1]; reflexivity.
Qed.

(** The loop, entered at a counter that is not negative, in closed form. *)
Lemma loop_step (count : Z) (w : world) :
  (0 <= count)%Z ->
  for_ (range_down count) attempt w =
  let after evs :=
    {| log := log w ++ pre count ++ start :: CallFunc :: evs;
       tasks := fst (func (ncalls w));
       ncalls := S (ncalls w) |} in
  match snd (func (ncalls w)) with
  | Returned result =>
      match drain (after [Commit; TransactionStop]) with
      | (Returned _, w2) => (Returned (Return result), w2)
      | (Raised e, w2) => (Raised e, w2)
      end
  | Raised e =>
      if is_DatabaseOperationalError e && negb (count =? 0)%Z && negb ro
      then for_ (range_down (count - 1)) attempt
             (after [Rollback; TransactionStop])
      else (Raised e, after [TransactionStop])
  end.
Proof.
  intros Hc. rewrite (range_down_step Hc), for_cons, attempt_eq. cbv zeta.
  destruct (snd (func (ncalls w))) as [result|e].
  - destruct (drain _) as [[u|e] w2]; reflexivity.
  - destruct (is_DatabaseOperationalError e && negb (count =? 0)%Z
              && negb ro); reflexivity.
Qed.

Lemma retried_nil (n : nat) : retried n n = [].
Proof. now rewrite Nat.sub_diag. Qed.

Lemma retried_cons (first n : nat) :
  (first < n)%nat ->
  retried first n
  = (pre (retry - Z.of_nat first)
     ++ [start; CallFunc; Rollback; TransactionStop])
    ++ retried (S first) n.
Proof.
  intros H. replace (n - first)%nat with (S (n - S first)) by lia.
  reflexivity.
Qed.

(** The loop entered after [ncalls w] calls, at the counter that goes
    with them: it ends with some call [n]; every call before [n] failed
    transiently and was rolled back; the log is that of the retried calls
    followed by the last attempt. *)
Lemma loop_spec (m : nat) : forall w : world,
  (retry - Z.of_nat (ncalls w) = Z.of_nat m)%Z ->
  exists n : nat,
    (ncalls w <= n)%nat
    /\ (Z.of_nat n <= retry)%Z
    /\ ncalls (snd (for_ (range_down (retry - Z.of_nat (ncalls w)))
                      attempt w)) = S n
    /\ (forall j, (ncalls w <= j < n)%nat -> transient_failure (func j))
    /\ ((ncalls w < n)%nat -> ro = false)
    /\ match snd (func n) with
       | Raised e =>
           fst (for_ (range_down (retry - Z.of_nat (ncalls w))) attempt w)
           = Raised e
           /\ log (snd (for_ (range_down (retry - Z.of_nat (ncalls w)))
                          attempt w))
              = log w ++ retried (ncalls w) n
                ++ pre (retry - Z.of_nat n)
                ++ [start; CallFunc; TransactionStop]
           /\ (is_DatabaseOperationalError e = true ->
               Z.of_nat n = retry \/ ro = true)
       | Returned result =>
           exists ran rest : list task_id,
             rev (fst (func n)) = ran ++ rest
             /\ log (snd (for_ (range_down (retry - Z.of_nat (ncalls w)))
                            attempt w))
                = log w ++ retried (ncalls w) n
                  ++ pre (retry - Z.of_nat n)
                  ++ [start; CallFunc; Commit; TransactionStop]
                  ++ map RunTask ran
             /\ ((forall t, In t (fst (func n)) -> run_task t = None) ->
                 rest = []
                 /\ fst (for_ (range_down (retry - Z.of_nat (ncalls w)))
                           attempt w)
                    = Returned (Return result))
       end.
Proof.
  induction m as [|m IH]; intros w Hc;
    (rewrite loop_step by lia); cbv zeta;
    destruct (func (ncalls w)) as [queued [result|e]] eqn:Hf;
    cbn [fst snd].
  1, 3: (* the handler returns: commit, then drain *)
    match goal with
    | |- context [with_transaction.drain ?rt ?p ?w0] =>
        destruct (drain_spec rt p w0) as (ran & rest & Hr & Hlog & Hn & Hok);
        destruct (with_transaction.drain rt p w0) as [[u|e'] w2]
    end;
    cbn [fst snd log tasks ncalls] in *;
    exists (ncalls w); rewrite Hf, retried_nil; cbn [fst snd];
    (split; [lia|]); (split; [lia|]); (split; [exact Hn|]);
    (split; [intros; lia|]); (split; [intros; lia|]);
    exists ran, rest; (split; [exact Hr|]);
    (split; [rewrite Hlog; repeat rewrite <- app_assoc; reflexivity|]);
    intros Hall; destruct (Hok Hall) as [-> Hfst];
    (split; [reflexivity|]); (reflexivity || discriminate Hfst).
  - (* the last turn: a failure is raised *)
    replace (is_DatabaseOperationalError e
             && negb (retry - Z.of_nat (ncalls w) =? 0)%Z
             && negb ro) with false
      by (rewrite Hc; cbn; now rewrite andb_false_r).
    exists (ncalls w). rewrite Hf, retried_nil.
    cbn [fst snd log tasks ncalls].
    split; [lia|]. split; [lia|]. split; [reflexivity|].
    split; [intros; lia|]. split; [intros; lia|].
    split; [reflexivity|].
    split; [repeat rewrite <- app_assoc; reflexivity|].
    intros _. left. lia.
  - destruct (is_DatabaseOperationalError e
              && negb (retry - Z.of_nat (ncalls w) =? 0)%Z
              && negb ro) eqn:Hcond.
    + (* rollback and continue *)
      apply andb_prop in Hcond. destruct Hcond as [Hcond Hro].
      apply andb_prop in Hcond. destruct Hcond as [He _].
      apply negb_true_iff in Hro.
      replace (retry - Z.of_nat (ncalls w) - 1)%Z
        with (retry - Z.of_nat (S (ncalls w)))%Z by lia.
      match goal with
      | |- context [for_ _ _ ?w1] =>
          destruct (IH w1) as (n & Hle & Hretry & Hn & Htr & _ & Hlast);
          [cbn [ncalls]; lia|]
      end.
      cbn [fst snd log tasks ncalls] in *.
      exists n.
      split; [lia|]. split; [lia|]. split; [exact Hn|].
      split.
      { intros j Hj. destruct (Nat.eq_dec j (ncalls w)) as [->|Hne].
        - rewrite Hf. exists e. now split.
        - apply Htr. lia. }
      split; [intros _; exact Hro|].
      rewrite (@retried_cons (ncalls w) n) by lia.
      destruct (snd (func n)) as [result|e0].
      * destruct Hlast as (ran & rest & Hr & Hlog & Hok).
        exists ran, rest. split; [exact Hr|]. split; [|exact Hok].
        rewrite Hlog. repeat rewrite <- app_assoc. reflexivity.
      * destruct Hlast as (Hfst & Hlog & Hwhy).
        split; [exact Hfst|]. split; [|exact Hwhy].
        rewrite Hlog. repeat rewrite <- app_assoc. reflexivity.
    + (* a failure that is not retried *)
      exists (ncalls w). rewrite Hf, retried_nil.
      cbn [fst snd log tasks ncalls].
      split; [lia|]. split; [lia|]. split; [reflexivity|].
      split; [intros; lia|]. split; [intros; lia|].
      split; [reflexivity|].
      split; [repeat rewrite <- app_assoc; reflexivity|].
      intros He. right. rewrite He in Hcond. cbn in Hcond.
      destruct (Z.eqb_spec (retry - Z.of_nat (ncalls w)) 0) as [E|_];
        [lia|].
      cbn in Hcond. now apply negb_false_iff in Hcond.
Qed.

End Loop.

(** *** A call of the wrapper *)

(** The wrapper reads the context and the user, then runs the loop. *)
Lemma wrapper_eq (w : world) :
  with_transaction.wrapper retry run_task readonly user func request pool w =
  match with_transaction.transaction_user user request with
  | Raised e => (Raised e, w)
  | Returned user_ =>
      match for_ (range_down retry)
              (with_transaction.attempt retry run_task readonly func request
                 pool user_) w with
      | (Returned Next, w1) => (Returned PyNoneV, w1)
      | (Returned (Return result), w1) => (Returned result, w1)
      | (Raised e, w1) => (Raised e, w1)
      end
  end.
Proof.
  unfold with_transaction.wrapper, with_transaction.transaction_user, bind,
    lift, ret, obind.
  destruct (context request) as [c|e]; [|reflexivity].
  destruct (with_transaction.user_of user request) as [u|e]; [|reflexivity].
  destruct (for_ (range_down retry) _ w) as [[[|a]|e] w1]; reflexivity.
Qed.

(** When a read raises, that is all that happens. *)
Lemma run_not_entered (e : exn) :
  with_transaction.transaction_user user request = Raised e ->
  run = (Raised e, initial).
Proof. intros H. now rewrite wrapper_eq, H. Qed.

(** With a negative retry count the loop has no turn: the handler is not
    called, and the wrapper returns [None] once the reads are made. *)
Lemma run_negative :
  (retry < 0)%Z ->
  run = (match with_transaction.transaction_user user request with
         | Returned _ => Returned PyNoneV
         | Raised e => Raised e
         end, initial).
Proof.
  intros H. rewrite wrapper_eq, range_down_neg by exact H.
  now destruct (with_transaction.transaction_user user request).
Qed.

(** A call of the wrapper, from a world in which nothing happened yet,
    once the reads are made. *)
Lemma run_spec (user_ : option Z) :
  entered user_ ->
  (0 <= retry)%Z ->
  exists n : nat,
    (Z.of_nat n <= retry)%Z
    /\ ncalls (snd run) = S n
    /\ (forall j, (j < n)%nat -> transient_failure (func j))
    /\ ((0 < n)%nat -> ro = false)
    /\ match snd (func n) with
       | Raised e =>
           fst run = Raised e
           /\ log (snd run)
              = retried_as user_ 0 n ++ pre (retry - Z.of_nat n)
                ++ [start_as user_; CallFunc; TransactionStop]
           /\ (is_DatabaseOperationalError e = true ->
               Z.of_nat n = retry \/ ro = true)
       | Returned result =>
           exists ran rest : list task_id,
             rev (fst (func n)) = ran ++ rest
             /\ log (snd run)
                = retried_as user_ 0 n ++ pre (retry - Z.of_nat n)
                  ++ [start_as user_; CallFunc; Commit; TransactionStop]
                  ++ map RunTask ran
             /\ ((forall t, In t (fst (func n)) -> run_task t = None) ->
                 rest = [] /\ fst run = Returned result)
       end.
Proof.
  intros Hent Hretry. rewrite wrapper_eq, Hent.
  destruct (@loop_spec user_ (Z.to_nat retry) initial)
    as (n & _ & Hn & Hcalls & Htr & Hro & Hlast); [cbn; lia|].
  cbn [ncalls initial log] in *.
  replace (retry - Z.of_nat 0)%Z with retry in * by lia.
  exists n. split; [exact Hn|].
  destruct (for_ (range_down retry) _ initial) as [[[|a]|e] w1];
    cbn [fst snd] in *;
    (split; [exact Hcalls|]);
    (split; [intros j Hj; apply Htr; lia|]); (split; [exact Hro|]);
    destruct (snd (func n)) as [result|e0];
    try (destruct Hlast as (ran & rest & Hr & Hlog & Hok);
         exists ran, rest; split; [exact Hr|]; split; [exact Hlog|];
         intros Hall; destruct (Hok Hall) as [-> Hfst];
         split; [reflexivity|]; congruence);
    destruct Hlast as (Hfst & Hlog & Hwhy); repeat split; auto;
    congruence.
Qed.

(** The handler is called only once the reads are made. *)
Lemma called_entered :
  (0 < ncalls (snd run))%nat -> exists user_, entered user_.
Proof.
  intros Hcalled.
  destruct (with_transaction.transaction_user user request) as [u|e] eqn:Hent;
    [now exists u|].
  rewrite (run_not_entered Hent) in Hcalled. cbn in Hcalled. lia.
Qed.

Lemma uncommitted_retried (u : option Z) (first n : nat) :
  uncommitted (retried_as u first n).
Proof.
  unfold uncommitted. generalize (n - first)%nat as len. intros len.
  revert first. induction len as [|len IH]; intros first; cbn.
  - constructor.
  - repeat (apply Forall_app; split); try apply IH.
    + destruct (_ =? _)%Z; repeat constructor.
    + repeat (constructor; [now split|]). constructor.
Qed.





(** ** Claims on with_transaction *)



Lemma uncommitted_In (l : list event) :
  uncommitted l -> ~ In Commit l /\ forall t, ~ In (RunTask t) l.
Proof.
  unfold uncommitted. rewrite Forall_forall. intros H.
  split; [intros Hin|intros t Hin]; destruct (H _ Hin); discriminate.
Qed.

(** C4, as amended. When a call of the handler that the wrapper makes
    returns, after queueing the task ids [ts] on its transaction in that
    order, the log ends with the commit, the end of the transaction, and
    then the task runs: nothing was committed and no task was run before;
    the tasks run are taken from the end of [ts], each once, up to the
    first one that raises; when no task raises they are exactly [ts]
    reversed and the wrapper returns the handler's result. *)
Theorem tasks_run_after_commit_in_reverse
    (n : nat) (ts : list task_id) (result : value) :
  func n = (ts, Returned result) ->
  (n < ncalls (snd run))%nat ->
  exists (before : list event) (ran rest : list task_id),
    log (snd run) = before ++ [Commit; TransactionStop] ++ map RunTask ran
    /\ ~ In Commit before
    /\ (forall t, ~ In (RunTask t) before)
    /\ rev ts = ran ++ rest
    /\ ((forall t, In t ts -> run_task t = None) ->
        ran = rev ts /\ fst run = Returned result).
Proof.
  intros Hf Hcalled.
  destruct called_entered as (user_ & Hent); [lia|].
  destruct (Z.lt_ge_cases retry 0) as [Hneg|Hretry];
    [rewrite (run_negative Hneg) in Hcalled; cbn in Hcalled; lia|].
  destruct (run_spec Hent Hretry) as (n0 & _ & Hcalls & Htr & _ & Hlast).
  assert (n0 = n) as ->.
  { destruct (Nat.eq_dec n0 n) as [E|Hne]; [exact E|].
    destruct (Htr n) as (e & He & _); [lia|].
    rewrite Hf in He. discriminate. }
  rewrite Hf in Hlast. cbn [fst snd] in Hlast.
  destruct Hlast as (ran & rest & Hr & Hlog & Hok).
  exists (retried_as user_ 0 n ++ pre (retry - Z.of_nat n)
          ++ [start_as user_; CallFunc]),
    ran, rest.
  split; [rewrite Hlog; repeat rewrite <- app_assoc; reflexivity|].
  assert (Hclean : uncommitted
            (retried_as user_ 0 n ++ pre (retry - Z.of_nat n)
             ++ [start_as user_; CallFunc])).
  { unfold uncommitted. repeat (apply Forall_app; split).
    - apply uncommitted_retried.
    - destruct (_ =? _)%Z; repeat constructor.
    - repeat constructor. }
  destruct (uncommitted_In Hclean) as [Hcommit Hrun].
  split; [exact Hcommit|]. split; [exact Hrun|]. split; [exact Hr|].
  intros Hall. destruct (Hok Hall) as [-> Hfst].
  now rewrite app_nil_r in *.
Qed.

(** C5. When a call of the handler that the wrapper makes raises an
    exception that is not a transient database failure, the wrapper
    raises that exception, that call is the last one, and the log holds
    no commit and no task run. *)
Theorem other_failure_propagates_at_once
    (n : nat) (queued : list task_id) (e : exn) :
  func n = (queued, Raised e) ->
  is_DatabaseOperationalError e = false ->
  (n < ncalls (snd run))%nat ->
  fst run = Raised e
  /\ ncalls (snd run) = S n
  /\ ~ In Commit (log (snd run))
  /\ (forall t, ~ In (RunTask t) (log (snd run))).
Proof.
  intros Hf He Hcalled.
  destruct called_entered as (user_ & Hent); [lia|].
  destruct (Z.lt_ge_cases retry 0) as [Hneg|Hretry];
    [rewrite (run_negative Hneg) in Hcalled; cbn in Hcalled; lia|].
  destruct (run_spec Hent Hretry) as (n0 & _ & Hcalls & Htr & _ & Hlast).
  assert (n0 = n) as ->.
  { destruct (Nat.eq_dec n0 n) as [E|Hne]; [exact E|].
    destruct (Htr n) as (e' & He' & Htransient); [lia|].
    rewrite Hf in He'. cbn in He'. congruence. }
  rewrite Hf in Hlast. cbn [fst snd] in Hlast.
  destruct Hlast as (Hfst & Hlog & _).
  split; [exact Hfst|]. split; [exact Hcalls|].
  apply uncommitted_In. rewrite Hlog.
  unfold uncommitted. repeat (apply Forall_app; split).
  - apply uncommitted_retried.
  - destruct (_ =? _)%Z; repeat constructor.
  - repeat constructor.
Qed.

(** The sleeps that go with call number [k]: none before the first call,
    one of [0.02 * (retry - count)] seconds before a later one, where
    [count = retry - k] is the loop counter of that attempt. *)
Local Abbreviation sleeps_of k :=
  (match k%nat with
   | O => []
   | S _ => [backoff (retry - Z.of_nat k)]
   end).

Lemma sleep_fold_quiet (evs : list event)
    (st : list (list float) * list float) :
  Forall (fun ev => forall st', sleep_step st' ev = st') evs ->
  fold_left sleep_step evs st = st.
Proof.
  induction 1 as [|ev evs Hev _ IH]; cbn; [reflexivity|].
  now rewrite Hev.
Qed.

Lemma sleep_fold_attempt (u : option Z) (k : nat) (evs : list event)
    (done : list (list float)) :
  fold_left sleep_step (pre (retry - Z.of_nat k) ++ start_as u :: evs)
    (done, [])
  = fold_left sleep_step evs (done ++ [sleeps_of k], []).
Proof.
  destruct (Z.eqb_spec (retry - Z.of_nat k) retry) as [E|Hne];
    destruct k as [|k]; try lia; reflexivity.
Qed.

Lemma sleep_fold_retried (u : option Z) (n : nat) :
  fold_left sleep_step (retried_as u 0 n) ([], [])
  = (map (fun k => sleeps_of k) (seq 0 n), []).
Proof.
  induction n as [|n IH]; [reflexivity|].
  rewrite Nat.sub_0_r in *. rewrite seq_S, flat_map_app, fold_left_app, IH.
  cbn [flat_map Nat.add]. rewrite app_nil_r, sleep_fold_attempt.
  now rewrite map_app.
Qed.

(** The sleep grows with the attempts already made. *)
Lemma backoff_scales (k : nat) :
  backoff (retry - Z.of_nat k)
  = float_mul float_0_02 (float_of_int (Z.of_nat k)).
Proof.
  unfold with_transaction.backoff.
  now replace (retry - (retry - Z.of_nat k))%Z with (Z.of_nat k) by lia.
Qed.

(** C3. In the log of a call of the wrapper, no sleep precedes the first
    transaction start, and exactly one sleep precedes the start of the
    attempt number [k > 0]: its argument is the float product
    [0.02 * (retry - attemptsRemaining)], where
    [attemptsRemaining = retry - k] is the loop counter of that attempt,
    the product of the double nearest to 0.02 and of the int converted
    to a double. *)
Theorem backoff_before_each_attempt :
  sleeps_before (log (snd run))
  = map (fun k : nat =>
           let attemptsRemaining := (retry - Z.of_nat k)%Z in
           match k with
           | O => []
           | S _ =>
               [float_mul float_0_02
                  (float_of_int (retry - attemptsRemaining))]
           end)
        (seq 0 (ncalls (snd run))).
Proof.
  destruct (with_transaction.transaction_user user request) as [u|e0] eqn:Hent;
    [|now rewrite (run_not_entered Hent)].
  destruct (Z.lt_ge_cases retry 0) as [Hneg|Hretry];
    [now rewrite (run_negative Hneg)|].
  destruct (run_spec Hent Hretry) as (n & _ & Hcalls & _ & _ & Hlast).
  rewrite Hcalls, seq_S, map_app. unfold sleeps_before.
  assert (Hquiet : forall evs,
             Forall (fun ev => forall st, sleep_step st ev = st) evs ->
             fold_left sleep_step
               (retried_as u 0 n ++ pre (retry - Z.of_nat n)
                ++ start_as u :: evs)
               ([], [])
             = (map (fun k => sleeps_of k) (seq 0 n) ++ [sleeps_of n], [])).
  { intros evs Hevs. rewrite fold_left_app, sleep_fold_retried.
    rewrite sleep_fold_attempt. now apply sleep_fold_quiet. }
  destruct (snd (func n)) as [result|e].
  - destruct Hlast as (ran & rest & _ & Hlog & _). rewrite Hlog.
    change ([start_as u; CallFunc; Commit; TransactionStop]
            ++ map RunTask ran)
      with (start_as u
            :: [CallFunc; Commit; TransactionStop] ++ map RunTask ran).
    rewrite Hquiet; [reflexivity|].
    repeat (constructor; [reflexivity|]).
    apply Forall_map, Forall_forall. reflexivity.
  - destruct Hlast as (_ & Hlog & _). rewrite Hlog.
    rewrite Hquiet; [reflexivity|]. repeat constructor.
Qed.
End Executor.



(** The sleeps of a call that exhausts three retries: 0.02, 0.04 and
    0.06 seconds, as doubles. *)
Lemma backoff_before_each_attempt_witness :
  sleeps_before
    (log (snd (with_transaction.wrapper 3 no_task_fails None (UserId 0)
                 always_busy post_request sample_pool initial)))
  = [[]; [S754_finite false 5764607523034235 (-58)];
     [S754_finite false 5764607523034235 (-57)];
     [S754_finite false 8646911284551352 (-57)]].
Proof.
  rewrite (@backoff_before_each_attempt 3 no_task_fails None (UserId 0)
             always_busy post_request sample_pool).
  reflexivity.
Defined.

Lemma tasks_run_after_commit_in_reverse_witness :
  exists before : list event,
    log (snd (with_transaction.wrapper 2 no_task_fails None (UserId 0)
                busy_then_done post_request sample_pool initial))
    = before ++ [Commit; TransactionStop]
      ++ [RunTask 3%Z; RunTask 2%Z; RunTask 1%Z]
    /\ ~ In Commit before
    /\ (forall t, ~ In (RunTask t) before).
Proof.
  destruct (@tasks_run_after_commit_in_reverse 2 no_task_fails None
              (UserId 0) busy_then_done post_request sample_pool
              1%nat [1%Z; 2%Z; 3%Z] (Object "done"))
    as (before & ran & rest & Hlog & Hcommit & Hrun & _ & Hall).
  - reflexivity.
  - vm_compute. lia.
  - destruct Hall as [Hran _]; [reflexivity|].
    exists before. rewrite Hlog, Hran. repeat split; assumption.
Defined.

(** C4, as it is stated, fails on a task that raises: the handler
    returns after queueing tasks 1, 2 and 3 and its transaction is
    committed; task 3 is run, then task 2, which raises; task 1 is never
    run, and the wrapper raises what task 2 raised. *)
Lemma a_failing_task_leaves_tasks_unrun :
  queues_three 0%nat = ([1%Z; 2%Z; 3%Z], Returned (Object "done"))
  /\ with_transaction.wrapper 0 task_two_fails None (UserId 0) queues_three
       post_request sample_pool initial
     = (Raised (ExceptionOther "TaskError"),
        {| log := [TransactionStart "tryton" (Some 0%Z) false; CallFunc;
                   Commit; TransactionStop; RunTask 3%Z; RunTask 2%Z];
           tasks := [1%Z];
           ncalls := 1 |})
  /\ ~ In (RunTask 1%Z)
         (log (snd (with_transaction.wrapper 0 task_two_fails None
                      (UserId 0) queues_three post_request sample_pool
                      initial))).
Proof.
  split; [reflexivity|]. split; [vm_compute; reflexivity|].
  vm_compute. intuition discriminate.
Qed.

Lemma other_failure_propagates_at_once_witness :
  fst (with_transaction.wrapper 2 no_task_fails None (UserId 0) broken
         post_request sample_pool initial)
  = Raised (ExceptionOther "ZeroDivisionError")
  /\ ncalls (snd (with_transaction.wrapper 2 no_task_fails None (UserId 0)
                    broken post_request sample_pool initial)) = 1%nat.
Proof.
  destruct (@other_failure_propagates_at_once 2 no_task_fails None
              (UserId 0) broken post_request sample_pool
              0%nat [4%Z] (ExceptionOther "ZeroDivisionError"))
    as (Hraised & Hcalls & _).
  - reflexivity.
  - reflexivity.
  - vm_compute. lia.
  - split; [exact Hraised | exact Hcalls].
Defined.

(** ** The credential parser *)

Lemma split_scheme_raises (raw : bytes) (e : exn) :
  split_scheme raw = Raised e -> is_ValueError e = true.
Proof.
  unfold split_scheme, unpack2.
  destruct (bytes_split_ws 1 raw) as [|a [|b [|c l]]]; cbn;
    intros H; inversion H; reflexivity.
Qed.

(** Whatever the bytes of the header are, the parser returns. *)
Lemma parse_returns (value : header_value) (raw : bytes) :
  as_bytes value = Returned raw ->
  exists r, parse_authorization_header value = Returned r.
Proof.
  intros Hraw. unfold parse_authorization_header.
  destruct (falsy value); [now eexists|]. rewrite Hraw.
  destruct (split_scheme raw) as [[auth_type auth_info]|e] eqn:Hsplit.
  - destruct (bytes_eqb auth_type (B "session")); [|now eexists].
    destruct (session_fields auth_info) as [[[u i] s]|e]; now eexists.
  - rewrite (split_scheme_raises _ Hsplit). now eexists.
Qed.

(** A header with the scheme [session]: the outcome is that of reading
    the three fields. *)
Lemma parse_session (value : header_value) (raw auth_type auth_info : bytes) :
  as_bytes value = Returned raw ->
  bytes_split_ws 1 raw = [auth_type; auth_info] ->
  bytes_lower auth_type = B "session" ->
  parse_authorization_header value =
  match session_fields auth_info with
  | Raised _ => Returned None
  | Returned (username, userid, session) =>
      Returned (Some {| auth_type_of := U "session";
                        username := decode_latin1 username;
                        userid := userid;
                        session := decode_latin1 session |})
  end.
Proof.
  intros Hraw Hsplit Hscheme. unfold parse_authorization_header.
  assert (Hfalsy : falsy value = false).
  { destruct value as [|[|c s]|[|b l]]; try reflexivity;
      cbn in Hraw; inversion Hraw; subst; discriminate Hsplit. }
  rewrite Hfalsy, Hraw. unfold split_scheme. rewrite Hsplit.
  cbn [unpack2 obind fst snd]. rewrite Hscheme. unfold bytes_eqb.
  destruct (list_eq_dec byte_eq_dec (B "session") (B "session"));
    [|congruence].
  destruct (session_fields auth_info) as [[[u i] s]|e']; reflexivity.
Qed.

Lemma break_at_count (sep : byte) (s : bytes) :
  (1 <= count_occ byte_eq_dec s sep)%nat ->
  exists w t,
    break_at sep s = Some (w, t)
    /\ count_occ byte_eq_dec s sep = S (count_occ byte_eq_dec t sep).
Proof.
  induction s as [|b r IH]; cbn; [lia|]. intros H.
  destruct (byte_eq_dec b sep) as [->|Hne].
  - rewrite (byte_dec_lb eq_refl). now eexists _, _.
  - destruct (Byte.eqb b sep) eqn:E; [now apply byte_dec_bl in E|].
    destruct (IH H) as (w & t & -> & Hcount). now eexists _, _.
Qed.

(** Enough separators: the split makes all its cuts. *)
Lemma bytes_split_length (sep : byte) (maxsplit : nat) : forall s : bytes,
  (maxsplit <= count_occ byte_eq_dec s sep)%nat ->
  List.length (bytes_split sep maxsplit s) = S maxsplit.
Proof.
  induction maxsplit as [|m IH]; intros s H; [reflexivity|].
  destruct (@break_at_count sep s) as (w & t & Hbreak & Hcount); [lia|].
  cbn. rewrite Hbreak. cbn. rewrite IH; [reflexivity|lia].
Qed.

(** C6. The value ["session dXNlcjoxMjM6dG9rZW4="] parses to the session
    credential of user ["user"], id 123, session ["token"]. [None], the
    empty str and the empty bytes parse to no credential. For any value
    that is a bytes object or a str that encodes to Latin-1, the parser
    returns and does not raise; and when the scheme is [session] and the
    payload fails base64 decoding, or does not split on [:] into three
    fields, or has a second field that [int] rejects, it returns no
    credential. *)
Theorem parse_authorization_header_fails_closed :
  parse_authorization_header (PyStr (U "session dXNlcjoxMjM6dG9rZW4="))
  = Returned (Some {| auth_type_of := U "session"; username := U "user";
                      userid := 123; session := U "token" |})
  /\ parse_authorization_header PyNone = Returned None
  /\ parse_authorization_header (PyStr []) = Returned None
  /\ parse_authorization_header (PyBytes []) = Returned None
  /\ forall (value : header_value) (raw : bytes),
       as_bytes value = Returned raw ->
       (exists r, parse_authorization_header value = Returned r)
       /\ forall auth_type auth_info : bytes,
            bytes_split_ws 1 raw = [auth_type; auth_info] ->
            bytes_lower auth_type = B "session" ->
            (a2b_base64 auth_info = None
             \/ (exists payload,
                   a2b_base64 auth_info = Some payload
                   /\ List.length (bytes_split ":"%byte 3 payload) <> 3%nat)
             \/ (exists payload username userid session,
                   a2b_base64 auth_info = Some payload
                   /\ bytes_split ":"%byte 3 payload
                      = [username; userid; session]
                   /\ int_of_bytes userid = None)) ->
            parse_authorization_header value = Returned None.
Proof.
  split; [vm_compute; reflexivity|]. repeat (split; [reflexivity|]).
  intros value raw Hraw. split; [exact (parse_returns _ Hraw)|].
  intros auth_type auth_info Hsplit Hscheme Hfail.
  rewrite (parse_session _ Hraw Hsplit Hscheme).
  unfold session_fields, b64decode, obind.
  destruct Hfail as [Hb64|[(payload & Hb64 & Hlen)
                         |(payload & u & i & s & Hb64 & Hfields & Hint)]];
    rewrite Hb64; [reflexivity| |].
  - unfold unpack3.
    destruct (bytes_split ":"%byte 3 payload) as [|a [|b [|c [|d l]]]];
      try reflexivity.
    now contradiction Hlen.
  - rewrite Hfields. cbn. unfold int. now rewrite Hint.
Qed.

Lemma parse_authorization_header_fails_closed_witness :
  parse_authorization_header (PyStr (U "session dXNlcjp4eXo6dG9rZW4="))
  = Returned None.
Proof.
  destruct parse_authorization_header_fails_closed
    as (_ & _ & _ & _ & Hclosed).
  destruct (Hclosed (PyStr (U "session dXNlcjp4eXo6dG9rZW4="))
              (B "session dXNlcjp4eXo6dG9rZW4=")) as [_ Hnone];
    [reflexivity|].
  apply (Hnone (B "session") (B "dXNlcjp4eXo6dG9rZW4=")).
  - reflexivity.
  - reflexivity.
  - right. right. exists (B "user:xyz:token"), (B "user"), (B "xyz"),
      (B "token"). repeat split; reflexivity.
Defined.

(** C10. A session header whose decoded payload holds three colons or
    more parses to no credential, whatever its first two fields are: the
    split gives four items, which do not unpack into three names. *)
Theorem session_payload_with_three_colons_is_rejected
    (value : header_value) (raw auth_type auth_info payload : bytes) :
  as_bytes value = Returned raw ->
  bytes_split_ws 1 raw = [auth_type; auth_info] ->
  bytes_lower auth_type = B "session" ->
  a2b_base64 auth_info = Some payload ->
  (3 <= count_occ byte_eq_dec payload ":"%byte)%nat ->
  parse_authorization_header value = Returned None.
Proof.
  intros Hraw Hsplit Hscheme Hb64 Hcolons.
  rewrite (parse_session _ Hraw Hsplit Hscheme).
  unfold session_fields, b64decode, obind. rewrite Hb64.
  pose proof (@bytes_split_length ":"%byte 3 payload Hcolons) as Hlen.
  unfold unpack3.
  destruct (bytes_split ":"%byte 3 payload) as [|a [|b [|c [|d l]]]];
    try reflexivity.
  discriminate Hlen.
Qed.

Lemma session_payload_with_three_colons_is_rejected_witness :
  a2b_base64 (B "dXNlcjoxMjM6dG9rOmVu") = Some (B "user:123:tok:en")
  /\ parse_authorization_header (PyStr (U "session dXNlcjoxMjM6dG9rOmVu"))
     = Returned None.
Proof.
  split; [reflexivity|].
  apply (@session_payload_with_three_colons_is_rejected
           (PyStr (U "session dXNlcjoxMjM6dG9rOmVu"))
           (B "session dXNlcjoxMjM6dG9rOmVu") (B "session")
           (B "dXNlcjoxMjM6dG9rOmVu") (B "user:123:tok:en"));
    reflexivity.
Defined.

(** ** with_pool *)

(** C9. When the wrapped function raises an exception that is not an
    [HTTPException], [with_pool] raises it again, untouched, if the
    request is an RPC call; if it is not, it aborts with 400 when the
    exception is a [UserError] or a [UserWarning] and with 500 otherwise,
    the exception being the description of the response. *)
Theorem with_pool_converts_failures
    (database_list : list string) (func : handler) (request : Request)
    (database_name : string) (queued : list task_id) (e : exn) :
  func 0%nat = (queued, Raised e) ->
  is_HTTPException e = false ->
  fst (with_pool.wrapper database_list func request database_name initial)
  = if is_rpc request then Raised e
    else if is_UserError e || is_UserWarning e
         then Raised (HTTPException HTTPStatus.BAD_REQUEST (Some e))
         else Raised (HTTPException HTTPStatus.INTERNAL_SERVER_ERROR (Some e)).
Proof.
  intros Hf Hhttp.
  unfold with_pool.wrapper, bind, try_except, with_, call_func, abort, raise,
    ret, transaction_start, transaction_stop, emit.
  destruct (existsb (String.eqb database_name) database_list);
    cbn; rewrite Hf, Hhttp;
    destruct (is_UserError e || is_UserWarning e); cbn;
    destruct (is_rpc request); reflexivity.
Qed.

Lemma with_pool_converts_failures_witness :
  fst (with_pool.wrapper ["tryton"%string] invalid get_request "tryton"
         initial)
  = Raised (HTTPException 400 (Some (UserError "The code is required.")))
  /\ fst (with_pool.wrapper ["tryton"%string] invalid rpc_request "tryton"
            initial)
     = Raised (UserError "The code is required.")
  /\ fst (with_pool.wrapper ["tryton"%string] broken get_request "tryton"
            initial)
     = Raised (HTTPException 500
                 (Some (ExceptionOther "ZeroDivisionError")))
  /\ fst (with_pool.wrapper ["tryton"%string] broken rpc_request "tryton"
            initial)
     = Raised (ExceptionOther "ZeroDivisionError").
Proof.
  split; [|split; [|split]].
  - apply (@with_pool_converts_failures ["tryton"%string] invalid
             get_request "tryton" [] (UserError "The code is required."));
      reflexivity.
  - apply (@with_pool_converts_failures ["tryton"%string] invalid
             rpc_request "tryton" [] (UserError "The code is required."));
      reflexivity.
  - apply (@with_pool_converts_failures ["tryton"%string] broken
             get_request "tryton" [4%Z]
             (ExceptionOther "ZeroDivisionError"));
      reflexivity.
  - apply (@with_pool_converts_failures ["tryton"%string] broken
             rpc_request "tryton" [4%Z]
             (ExceptionOther "ZeroDivisionError"));
      reflexivity.
Defined.

(** ** user_application *)

Section Application.
Variable check : str -> string -> option Application.
Variable dumps : value -> outcome string.
Variable name : string.
Variable json : bool.
Variable func : handler.

Local Abbreviation wrapper :=
  (user_application.wrapper check dumps name json func).

(** A request without the header: the subscript raises before the [try]
    block is entered, and nothing else happens. *)
Lemma missing_header_raises_KeyError (request : Request) (w : world) :
  headers_get (headers request) "Authorization" = None ->
  wrapper request w = (Raised (KeyError "Authorization"), w).
Proof.
  intros Hget. unfold user_application.wrapper, headers_getitem, bind.
  now rewrite Hget.
Qed.

(** A header that does not split into a scheme and a key is answered 401. *)
Lemma unsplit_header_is_unauthorized
    (request : Request) (authorization : str) (w : world) :
  headers_get (headers request) "Authorization" = Some authorization ->
  List.length (str_split_ws 1 authorization) <> 2%nat ->
  wrapper request w = (Raised (HTTPException 401 None), w).
Proof.
  intros Hget Hlen.
  unfold user_application.wrapper, headers_getitem, bind, try_except, lift.
  rewrite Hget. cbn. unfold unpack2.
  destruct (str_split_ws 1 authorization) as [|a [|b [|c l]]];
    try reflexivity.
  now contradiction Hlen.
Qed.

Lemma str_eqb_refl (a : str) : str_eqb a a = true.
Proof. unfold str_eqb. now destruct (list_eq_dec N.eq_dec a a). Qed.

(** When every check passes the handler is called once, as the user of
    the application. *)
Lemma accepted_request_calls_handler_once
    (request : Request) (authorization auth_type auth_info : str)
    (application : Application) :
  headers_get (headers request) "Authorization" = Some authorization ->
  str_split_ws 1 authorization = [auth_type; auth_info] ->
  str_lower auth_type = U "bearer" ->
  check auth_info name = Some application ->
  ncalls (snd (wrapper request initial)) = 1%nat
  /\ log (snd (wrapper request initial))
     = [CheckApplication auth_info name;
        SetUser (application_user application); CheckAccessEnter; CallFunc;
        CheckAccessExit; ResetUser].
Proof.
  intros Hget Hsplit Hscheme Hcheck.
  unfold user_application.wrapper, headers_getitem, bind, try_except, lift,
    user_application.UserApplication_check, with_, call_func, emit, ret.
  rewrite Hget. cbn. rewrite Hsplit. cbn [unpack2 obind fst snd].
  rewrite Hscheme, str_eqb_refl. cbn. rewrite Hcheck. cbn.
  destruct (func 0%nat) as [queued [response|e]]; cbn;
    [destruct (negb (is_Response response) && json);
     [destruct (dumps response)|]|]; now split.
Qed.

(** C8. For a request whose Authorization header splits into a scheme
    and a key: when the scheme, lowered, is not [bearer], the wrapper
    aborts with 403 and nothing else has happened, no lookup of the key
    and no call of the handler; when the scheme is [bearer] and the lookup
    of the key finds no application, the wrapper aborts with 403 after
    that one lookup, and the handler is not called. *)
Theorem user_application_forbids
    (request : Request) (authorization auth_type auth_info : str) :
  headers_get (headers request) "Authorization" = Some authorization ->
  str_split_ws 1 authorization = [auth_type; auth_info] ->
  (str_lower auth_type <> U "bearer" ->
   wrapper request initial
   = (Raised (HTTPException HTTPStatus.FORBIDDEN None), initial))
  /\ (str_lower auth_type = U "bearer" ->
      check auth_info name = None ->
      wrapper request initial
      = (Raised (HTTPException HTTPStatus.FORBIDDEN None),
         {| log := [CheckApplication auth_info name];
            tasks := []; ncalls := 0 |})).
Proof.
  intros Hget Hsplit.
  unfold user_application.wrapper, headers_getitem, bind, try_except, lift,
    user_application.UserApplication_check, emit, ret, abort, raise.
  rewrite Hget. cbn. rewrite Hsplit. cbn [unpack2 obind fst snd].
  unfold str_eqb. split.
  - intros Hscheme.
    destruct (list_eq_dec N.eq_dec (str_lower auth_type) (U "bearer"));
      [contradiction|reflexivity].
  - intros Hscheme Hcheck.
    destruct (list_eq_dec N.eq_dec (str_lower auth_type) (U "bearer"));
      [|contradiction].
    cbn. now rewrite Hcheck.
Qed.

(** C7, as the code has it. A request without an Authorization header
    is not answered 401: the wrapper raises the [KeyError] of the
    subscript. The handler is not called. *)
Theorem user_application_missing_header :
  wrapper get_request initial = (Raised (KeyError "Authorization"), initial)
  /\ fst (wrapper get_request initial)
     <> Raised (HTTPException HTTPStatus.UNAUTHORIZED None)
  /\ ncalls (snd (wrapper get_request initial)) = 0%nat.
Proof.
  rewrite (@missing_header_raises_KeyError get_request initial eq_refl).
  repeat split. discriminate.
Qed.
End Application.

Lemma user_application_forbids_witness :
  user_application.wrapper no_application to_json "shop" true broken
    basic_request initial
  = (Raised (HTTPException 403 None), initial)
  /\ user_application.wrapper no_application to_json "shop" true broken
       bearer_request initial
     = (Raised (HTTPException 403 None),
        {| log := [CheckApplication (U "s3cr3t") "shop"];
           tasks := []; ncalls := 0 |}).
Proof.
  split.
  - apply (@user_application_forbids no_application to_json "shop" true
             broken basic_request (U "Basic dXNlcjpwdw==") (U "Basic")
             (U "dXNlcjpwdw==") eq_refl eq_refl).
    intros H. discriminate H.
  - apply (@user_application_forbids no_application to_json "shop" true
             broken bearer_request (U "Bearer s3cr3t") (U "Bearer")
             (U "s3cr3t") eq_refl eq_refl); reflexivity.
Defined.

(** C8, as it is stated, fails on a header that names a scheme and
    nothing else: [Authorization: Basic] has a scheme that is not
    [bearer], and it is answered 401, not 403, since it does not split
    into a scheme and a key. *)
Lemma scheme_without_key_is_unauthorized :
  headers_get (headers scheme_only_request) "Authorization"
  = Some (U "Basic")
  /\ str_split_ws 1 (U "Basic") = [U "Basic"]
  /\ str_lower (U "Basic") <> U "bearer"
  /\ user_application.wrapper no_application to_json "shop" true broken
       scheme_only_request initial
     = (Raised (HTTPException HTTPStatus.UNAUTHORIZED None), initial)
  /\ fst (user_application.wrapper no_application to_json "shop" true broken
            scheme_only_request initial)
     <> Raised (HTTPException HTTPStatus.FORBIDDEN None).
Proof.
  split; [reflexivity|]. split; [reflexivity|].
  split; [intros H; discriminate H|].
  split; [reflexivity|]. intros H. discriminate H.
Qed.

(** * Further properties *)

(** ** The attempt loop, whatever the handler does *)

Lemma count_app (p : event -> bool) (l1 l2 : list event) :
  count p (l1 ++ l2) = (count p l1 + count p l2)%nat.
Proof. unfold count. now rewrite filter_app, length_app. Qed.

Lemma count_run_tasks (p : event -> bool) (ran : list task_id) :
  (forall t, p (RunTask t) = false) -> count p (map RunTask ran) = 0%nat.
Proof.
  intros Hp. induction ran as [|t ran IH]; [reflexivity|].
  unfold count in *. cbn. now rewrite Hp.
Qed.

Lemma pop_snoc {A} (l : list A) (x : A) : pop (l ++ [x]) = Some (l, x).
Proof. unfold pop. now rewrite rev_unit, rev_involutive. Qed.

Section Attempts.
Variable retry : Z.
Variable run_task : task_id -> option exn.
Variable readonly : option bool.
Variable user : user_arg.
Variable func : handler.
Variable request : Request.
Variable pool : Pool.

Local Abbreviation ro := (with_transaction.readonly_of readonly request).
Local Abbreviation drain := (with_transaction.drain run_task pool).
Local Abbreviation backoff := (with_transaction.backoff retry).
Local Abbreviation pre count :=
  (if (count =? retry)%Z then [] else [Sleep (backoff count)]).
Local Abbreviation start_as u := (TransactionStart (database_name pool) u ro).
Local Abbreviation retried_as u first n :=
  (flat_map
     (fun j : nat =>
        pre (retry - Z.of_nat j)
        ++ [start_as u; CallFunc; Rollback; TransactionStop])
     (seq first (n - first))).
Local Abbreviation entered u :=
  (with_transaction.transaction_user user request = Returned u).
Local Abbreviation run :=
  (with_transaction.wrapper retry run_task readonly user func request pool
     initial).

Lemma count_pre (p : event -> bool) (c : Z) :
  (forall d, p (Sleep d) = false) -> count p (pre c) = 0%nat.
Proof.
  intros Hp. destruct (c =? retry)%Z; [reflexivity|].
  unfold count. cbn. now rewrite Hp.
Qed.

(** *** Once the context and the user are read, [user_] being the user *)

Section Entered.
Variable user_ : option Z.

Local Abbreviation attempt :=
  (with_transaction.attempt retry run_task readonly func request pool user_).
Local Abbreviation start := (start_as user_).
Local Abbreviation retried first n := (retried_as user_ first n).

Lemma count_retried (p : event -> bool) (first n : nat) :
  (forall d, p (Sleep d) = false) ->
  count p (retried first n)
  = ((n - first)
     * count p [start; CallFunc; Rollback; TransactionStop])%nat.
Proof.
  intros Hp. generalize (n - first)%nat as len. intros len. revert first.
  induction len as [|len IH]; intros first; [reflexivity|].
  cbn [seq flat_map]. rewrite !count_app, IH, count_pre by exact Hp. lia.
Qed.

(** The log of a call: the retried calls, then the last attempt. *)
Lemma run_log :
  entered user_ ->
  (0 <= retry)%Z ->
  exists (n : nat) (ran : list task_id),
    ncalls (snd run) = S n
    /\ (Z.of_nat n <= retry)%Z
    /\ ((0 < n)%nat -> ro = false)
    /\ log (snd run)
       = retried 0 n ++ pre (retry - Z.of_nat n)
         ++ start :: CallFunc
            :: match snd (func n) with
               | Returned _ => [Commit; TransactionStop] ++ map RunTask ran
               | Raised _ => [TransactionStop]
               end.
Proof.
  intros Hent Hretry.
  destruct (@run_spec retry run_task readonly user func request pool user_
              Hent Hretry)
    as (n & Hn & Hcalls & _ & Hro & Hlast).
  destruct (snd (func n)) as [result|e] eqn:Hf.
  - destruct Hlast as (ran & rest & _ & Hlog & _).
    exists n, ran. rewrite Hf. repeat (split; [assumption|]). exact Hlog.
  - destruct Hlast as (_ & Hlog & _).
    exists n, []. rewrite Hf. repeat (split; [assumption|]). exact Hlog.
Qed.

Lemma count_last (p : event -> bool) (n : nat) (ran : list task_id) :
  (forall t, p (RunTask t) = false) ->
  count p
    (start :: CallFunc
       :: match snd (func n) with
          | Returned _ => [Commit; TransactionStop] ++ map RunTask ran
          | Raised _ => [TransactionStop]
          end)
  = count p
      (start :: CallFunc
         :: match snd (func n) with
            | Returned _ => [Commit; TransactionStop]
            | Raised _ => [TransactionStop]
            end).
Proof.
  intros Hp. destruct (snd (func n)); [|reflexivity].
  change (start :: CallFunc :: [Commit; TransactionStop] ++ map RunTask ran)
    with ([start; CallFunc; Commit; TransactionStop] ++ map RunTask ran).
  rewrite count_app, count_run_tasks by exact Hp. apply Nat.add_0_r.
Qed.

(** Counting the events of a kind in the log of a call. *)
Lemma run_count :
  entered user_ ->
  (0 <= retry)%Z ->
  exists n : nat,
    ncalls (snd run) = S n
    /\ (Z.of_nat n <= retry)%Z
    /\ ((0 < n)%nat -> ro = false)
    /\ (forall p : event -> bool,
          (forall d, p (Sleep d) = false) ->
          (forall t, p (RunTask t) = false) ->
          count p (log (snd run))
          = (n * count p [start; CallFunc; Rollback; TransactionStop]
             + count p
                 (start :: CallFunc
                    :: match snd (func n) with
                       | Returned _ => [Commit; TransactionStop]
                       | Raised _ => [TransactionStop]
                       end))%nat)
    /\ count is_Sleep (log (snd run)) = n.
Proof.
  intros Hent Hretry.
  destruct (run_log Hent Hretry) as (n & ran & Hcalls & Hn & Hro & Hlog).
  exists n. repeat (split; [assumption|]). rewrite Hlog. split.
  - intros p Hsleep Htask.
    rewrite !count_app, count_retried, count_pre, count_last by assumption.
    rewrite Nat.sub_0_r. lia.
  - rewrite !count_app.
    assert (Htail : forall l, (forall ev, In ev l -> is_Sleep ev = false) ->
                              count is_Sleep l = 0%nat).
    { intros l Hl. unfold count. induction l as [|ev l IH]; [reflexivity|].
      cbn. rewrite (Hl ev (or_introl eq_refl)). apply IH.
      intros ev' Hin. apply Hl. now right. }
    rewrite (Htail (start :: _)).
    2:{ intros ev [<-|[<-|Hin]]; try reflexivity.
        destruct (snd (func n)); cbn in Hin.
        - destruct Hin as [<-|[<-|Hin]]; try reflexivity.
          apply in_map_iff in Hin. destruct Hin as (t & <- & _). reflexivity.
        - destruct Hin as [<-|[]]. reflexivity. }
    assert (Hfrom : forall len first, (0 < first)%nat ->
              count is_Sleep
                (flat_map
                   (fun j : nat =>
                      pre (retry - Z.of_nat j)
                      ++ [start; CallFunc; Rollback; TransactionStop])
                   (seq first len)) = len).
    { induction len as [|len IH]; intros first Hfirst; [reflexivity|].
      cbn [seq flat_map]. rewrite !count_app, IH by lia.
      destruct (Z.eqb_spec (retry - Z.of_nat first) retry); [lia|].
      reflexivity. }
    destruct n as [|n]; cbn [Nat.sub seq flat_map].
    + replace (retry - Z.of_nat 0)%Z with retry by lia.
      now rewrite Z.eqb_refl.
    + rewrite !count_app, Hfrom by lia.
      replace (retry - Z.of_nat 0)%Z with retry by lia. rewrite Z.eqb_refl.
      destruct (Z.eqb_spec (retry - Z.of_nat (S n)) retry); [lia|].
      cbn. lia.
Qed.

(** X1. Once the context and the user of the transaction are read, with
    [retry >= 0], the handler is called at least once and at most
    [retry + 1] times, whatever it does. *)
Theorem attempts_within_bounds :
  with_transaction.transaction_user user request = Returned user_ ->
  (0 <= retry)%Z ->
  let w :=
    snd (with_transaction.wrapper retry run_task readonly user func request
           pool initial) in
  (1 <= ncalls w)%nat /\ (Z.of_nat (ncalls w) <= retry + 1)%Z.
Proof.
  intros Hent Hretry w. subst w.
  destruct (run_log Hent Hretry) as (n & ran & Hcalls & Hn & _).
  rewrite Hcalls. lia.
Qed.

(** X3. On a read-only transaction the handler is called exactly once,
    whatever it does and whatever the retry count [retry >= 0]: the
    wrapper never sleeps and never rolls back. *)
Theorem readonly_is_attempted_once :
  with_transaction.transaction_user user request = Returned user_ ->
  (0 <= retry)%Z ->
  ro = true ->
  ncalls (snd run) = 1%nat
  /\ count is_Rollback (log (snd run)) = 0%nat
  /\ count is_Sleep (log (snd run)) = 0%nat
  /\ count is_Start (log (snd run)) = 1%nat.
Proof.
  intros Hent Hretry Hro.
  destruct (run_count Hent Hretry)
    as (n & Hcalls & _ & Hfirst & Hcount & Hsleep).
  assert (n = 0%nat) as ->
    by (destruct n; [reflexivity|]; rewrite Hfirst in Hro by lia;
        discriminate).
  rewrite Hcalls, Hsleep, !Hcount by reflexivity.
  destruct (snd (func 0%nat)); repeat split; reflexivity.
Qed.

(** X5. Once the context and the user are read, with [retry >= 0], the
    log holds one rollback for every call of the handler but the last,
    and one commit if the last call returned, none otherwise. *)
Theorem rollbacks_and_commit :
  with_transaction.transaction_user user request = Returned user_ ->
  (0 <= retry)%Z ->
  S (count is_Rollback (log (snd run))) = ncalls (snd run)
  /\ count is_Commit (log (snd run))
     = match snd (func (Nat.pred (ncalls (snd run)))) with
       | Returned _ => 1%nat
       | Raised _ => 0%nat
       end.
Proof.
  intros Hent Hretry.
  destruct (run_count Hent Hretry) as (n & Hcalls & _ & _ & Hcount & _).
  rewrite Hcalls, !Hcount by reflexivity. cbn [Nat.pred].
  destruct (snd (func n)); cbn; lia.
Qed.

(** Draining a queue none of whose tasks raises: every task is run, from
    the end, and the queue is left empty. *)
Lemma drain_all : forall (ts : list task_id) (l : list event) (k : nat),
  (forall t, In t ts -> run_task t = None) ->
  drain {| log := l; tasks := ts; ncalls := k |}
  = (Returned tt,
     {| log := l ++ map RunTask (rev ts); tasks := []; ncalls := k |}).
Proof.
  intros ts. induction ts as [|x ts IH] using rev_ind; intros l k Hall;
    rewrite with_transaction.drain_equation; cbn [tasks log ncalls].
  - cbn. now rewrite app_nil_r.
  - rewrite pop_snoc. unfold with_transaction.run_task_call.
    cbn [tasks log ncalls].
    rewrite (Hall x) by (apply in_or_app; right; now left).
    rewrite IH by (intros t Ht; apply Hall, in_or_app; now left).
    rewrite rev_unit. cbn [map]. now rewrite <- app_assoc.
Qed.

(** Draining a queue in which [t] raises and the tasks queued after it
    do not: those run, then [t]; what was queued before [t] stays. *)
Lemma drain_fails : forall (later : list task_id) (sooner : list task_id)
    (t : task_id) (e : exn) (l : list event) (k : nat),
  (forall x, In x later -> run_task x = None) ->
  run_task t = Some e ->
  drain {| log := l; tasks := sooner ++ t :: later; ncalls := k |}
  = (Raised e,
     {| log := l ++ map RunTask (rev later ++ [t]);
        tasks := sooner; ncalls := k |}).
Proof.
  intros later. induction later as [|x later IH] using rev_ind;
    intros sooner t e l k Hall Ht;
    rewrite with_transaction.drain_equation; cbn [tasks log ncalls].
  - change (sooner ++ [t]) with (sooner ++ [t]). rewrite pop_snoc.
    unfold with_transaction.run_task_call. cbn [tasks log ncalls].
    now rewrite Ht.
  - replace (sooner ++ t :: later ++ [x])
      with ((sooner ++ t :: later) ++ [x])
      by (now rewrite <- app_assoc).
    rewrite pop_snoc. unfold with_transaction.run_task_call.
    cbn [tasks log ncalls].
    rewrite (Hall x) by (apply in_or_app; right; now left).
    rewrite (IH sooner t e) by
      (try assumption; intros y Hy; apply Hall, in_or_app; now left).
    rewrite rev_unit. cbn [map app]. now rewrite <- app_assoc.
Qed.

(** The loop when call [n] is the first that does not fail transiently,
    is within the retry count, and returns. *)
Lemma loop_returns_at (m : nat) :
  forall (w : world) (n : nat) (ts : list task_id) (result : value),
  (retry - Z.of_nat (ncalls w) = Z.of_nat m)%Z ->
  (ncalls w <= n)%nat ->
  (Z.of_nat n <= retry)%Z ->
  (forall j, (ncalls w <= j < n)%nat -> transient_failure (func j)) ->
  ((ncalls w < n)%nat -> ro = false) ->
  func n = (ts, Returned result) ->
  for_ (range_down (retry - Z.of_nat (ncalls w))) attempt w
  = match drain {| log := log w ++ retried (ncalls w) n
                          ++ pre (retry - Z.of_nat n)
                          ++ [start; CallFunc; Commit; TransactionStop];
                   tasks := ts;
                   ncalls := S n |} with
    | (Returned _, w2) => (Returned (Return result), w2)
    | (Raised e, w2) => (Raised e, w2)
    end.
Proof.
  induction m as [|m IH]; intros w n ts result Hc Hle Hn Htr Hro Hf;
    (rewrite (@loop_step retry run_task readonly func request pool user_)
       by lia); cbv zeta;
    destruct (Nat.eq_dec (ncalls w) n) as [E|Hne]; try lia.
  1, 2: subst n; rewrite Hf; cbn [fst snd];
    rewrite (@retried_nil retry readonly request pool user_);
    reflexivity.
  destruct (Htr (ncalls w)) as (e & He & Htransient); [lia|].
  rewrite He.
  assert (Hcond : is_DatabaseOperationalError e
                  && negb (retry - Z.of_nat (ncalls w) =? 0)%Z
                  && negb ro = true).
  { rewrite Htransient, Hro by lia.
    destruct (Z.eqb_spec (retry - Z.of_nat (ncalls w)) 0) as [E|_]; [lia|].
    reflexivity. }
  rewrite Hcond.
  replace (retry - Z.of_nat (ncalls w) - 1)%Z
    with (retry - Z.of_nat (S (ncalls w)))%Z by lia.
  match goal with
  | |- for_ _ _ ?w1 = _ => pose proof (IH w1 n ts result) as H1
  end.
  cbn [ncalls log tasks] in H1. rewrite H1; try assumption; try lia.
  - rewrite (@retried_cons retry readonly request pool user_ (ncalls w) n)
      by lia.
    repeat rewrite <- app_assoc. reflexivity.
  - intros j Hj. apply Htr. lia.
  - intros Hlt. apply Hro. lia.
Qed.

Lemma run_returns_at (n : nat) (ts : list task_id) (result : value) :
  entered user_ ->
  (Z.of_nat n <= retry)%Z ->
  (forall j, (j < n)%nat -> transient_failure (func j)) ->
  ((0 < n)%nat -> ro = false) ->
  func n = (ts, Returned result) ->
  run
  = match drain {| log := retried 0 n ++ pre (retry - Z.of_nat n)
                          ++ [start; CallFunc; Commit; TransactionStop];
                   tasks := ts;
                   ncalls := S n |} with
    | (Returned _, w2) => (Returned result, w2)
    | (Raised e, w2) => (Raised e, w2)
    end.
Proof.
  intros Hent Hn Htr Hro Hf.
  rewrite (@wrapper_eq retry run_task readonly user func request pool), Hent.
  pose proof (@loop_returns_at (Z.to_nat retry) initial n ts result) as H.
  cbn [ncalls log initial app] in H.
  replace (retry - Z.of_nat 0)%Z with retry in H by lia.
  rewrite H; try assumption; try lia.
  - now destruct (drain _) as [[u|e] w2].
  - intros j Hj. apply Htr. lia.
Qed.

(** X6. A transient failure that goes away is invisible to the caller:
    once the context and the user [user_] are read, when the calls
    before call [n <= retry] fail transiently on a read-write
    transaction, call [n] returns and no task raises, the wrapper
    returns the result of call [n]; the log shows [n] rolled-back
    attempts, then the attempt that is committed, then the tasks of call
    [n] only, last queued first; the queue is left empty. *)
Theorem transient_failures_then_success
    (n : nat) (ts : list task_id) (result : value) :
  with_transaction.transaction_user user request = Returned user_ ->
  (Z.of_nat n <= retry)%Z ->
  (forall j, (j < n)%nat -> transient_failure (func j)) ->
  ((0 < n)%nat -> ro = false) ->
  func n = (ts, Returned result) ->
  (forall t, In t ts -> run_task t = None) ->
  run
  = (Returned result,
     {| log := (retried_as user_ 0 n ++ pre (retry - Z.of_nat n)
                ++ [TransactionStart (database_name pool) user_ ro;
                    CallFunc; Commit; TransactionStop])
               ++ map RunTask (rev ts);
        tasks := [];
        ncalls := S n |}).
Proof.
  intros Hent Hn Htr Hro Hf Hall.
  rewrite (run_returns_at Hent Hn Htr Hro Hf), drain_all by exact Hall.
  reflexivity.
Qed.

(** X7. A task that raises: once the context and the user [user_] are
    read, when the calls before call [n <= retry] fail transiently on a
    read-write transaction, call [n] returns after queueing
    [sooner ++ t :: later], running [t] raises [e] and the tasks of
    [later] run without raising, the wrapper raises [e] although the
    transaction is committed, the result of the handler is lost, the
    tasks of [later] and [t] have run, and those of [sooner] stay in the
    queue and are not run. *)
Theorem failing_task_stops_the_draining
    (n : nat) (sooner later : list task_id) (t : task_id) (e : exn)
    (result : value) :
  with_transaction.transaction_user user request = Returned user_ ->
  (Z.of_nat n <= retry)%Z ->
  (forall j, (j < n)%nat -> transient_failure (func j)) ->
  ((0 < n)%nat -> ro = false) ->
  func n = (sooner ++ t :: later, Returned result) ->
  (forall x, In x later -> run_task x = None) ->
  run_task t = Some e ->
  run
  = (Raised e,
     {| log := (retried_as user_ 0 n ++ pre (retry - Z.of_nat n)
                ++ [TransactionStart (database_name pool) user_ ro;
                    CallFunc; Commit; TransactionStop])
               ++ map RunTask (rev later ++ [t]);
        tasks := sooner;
        ncalls := S n |}).
Proof.
  intros Hent Hn Htr Hro Hf Hall Ht.
  rewrite (run_returns_at Hent Hn Htr Hro Hf).
  now rewrite (@drain_fails later sooner t e _ _ Hall Ht).
Qed.
End Entered.

(** X2. With a negative retry count the loop has no turn: the handler is
    never called, no transaction is started, and the wrapper returns
    [None], unless reading the context or the user raised, which the
    wrapper then raises. *)
Theorem negative_retry_skips_the_handler :
  (retry < 0)%Z ->
  run
  = (match context request with
     | Raised e => Raised e
     | Returned _ =>
         match with_transaction.user_of user request with
         | Raised e => Raised e
         | Returned _ => Returned PyNoneV
         end
     end, initial).
Proof.
  intros H.
  unfold with_transaction.wrapper, bind, lift, ret.
  destruct (context request) as [c|e]; [|reflexivity].
  destruct (with_transaction.user_of user request) as [u|e]; [|reflexivity].
  now rewrite range_down_neg.
Qed.

(** X4. Every transaction the wrapper starts is ended: in the log of any
    call there are as many transaction starts, and as many ends, as calls
    of the handler. *)
Theorem transactions_are_balanced :
  count is_Start (log (snd run)) = ncalls (snd run)
  /\ count is_Stop (log (snd run)) = ncalls (snd run).
Proof.
  destruct (with_transaction.transaction_user user request) as [u|e] eqn:Hent.
  2:{ rewrite (@run_not_entered retry run_task readonly user func request
                 pool e Hent). now split. }
  destruct (Z.lt_ge_cases retry 0) as [Hneg|Hretry].
  - rewrite (@run_negative retry run_task readonly user func request pool
               Hneg). now split.
  - destruct (run_count Hent Hretry) as (n & Hcalls & _ & _ & Hcount & _).
    rewrite Hcalls, !Hcount by reflexivity.
    destruct (snd (func n)); cbn; lia.
Qed.

(** X8. The wrapper sleeps once before every attempt but the first, and
    at no other time: the log of any call holds one sleep less than
    calls of the handler, none when the handler is not called. *)
Theorem one_sleep_between_attempts :
  count is_Sleep (log (snd run)) = Nat.pred (ncalls (snd run)).
Proof.
  destruct (with_transaction.transaction_user user request) as [u|e] eqn:Hent.
  2:{ now rewrite (@run_not_entered retry run_task readonly user func request
                     pool e Hent). }
  destruct (Z.lt_ge_cases retry 0) as [Hneg|Hretry].
  - now rewrite (@run_negative retry run_task readonly user func request pool
                   Hneg).
  - destruct (run_count Hent Hretry) as (n & Hcalls & _ & _ & _ & Hsleep).
    now rewrite Hcalls, Hsleep.
Qed.

(** X29. The context of the request and, for [user='request'], its
    user are read before the loop: when one of these reads raises, the
    wrapper raises that exception and nothing else happens, no sleep, no
    transaction and no call of the handler. With a user id for [user],
    the user of the request is not read. *)
Theorem failed_read_skips_the_loop (e : exn) :
  context request = Raised e
  \/ ((exists context_, context request = Returned context_)
      /\ user = UserOfRequest
      /\ user_id request = Raised e) ->
  run = (Raised e, initial).
Proof.
  intros Hread.
  unfold with_transaction.wrapper, bind, lift, ret.
  destruct Hread as [->|((context_ & ->) & -> & Hid)]; [reflexivity|].
  cbn. now rewrite Hid.
Qed.
End Attempts.

Lemma attempts_within_bounds_witness :
  (1 <= ncalls (snd (with_transaction.wrapper 3 no_task_fails None
                       UserOfRequest busy_then_done session_request
                       sample_pool initial)))%nat
  /\ (Z.of_nat (ncalls (snd (with_transaction.wrapper 3 no_task_fails None
                               UserOfRequest busy_then_done session_request
                               sample_pool initial))) <= 4)%Z.
Proof.
  apply (@attempts_within_bounds 3 no_task_fails None UserOfRequest
           busy_then_done session_request sample_pool (Some 123%Z));
    [reflexivity|lia].
Defined.

Lemma negative_retry_skips_the_handler_witness :
  with_transaction.wrapper (-1) no_task_fails None (UserId 0) busy_then_done
    post_request sample_pool initial
  = (Returned PyNoneV, initial).
Proof.
  apply (@negative_retry_skips_the_handler (-1) no_task_fails None
           (UserId 0) busy_then_done post_request sample_pool). lia.
Defined.

Lemma readonly_is_attempted_once_witness :
  ncalls (snd (with_transaction.wrapper 4 no_task_fails (Some true)
                 (UserId 0) busy_then_done post_request sample_pool
                 initial)) = 1%nat.
Proof.
  apply (@readonly_is_attempted_once 4 no_task_fails (Some true) (UserId 0)
           busy_then_done post_request sample_pool (Some 0%Z));
    [reflexivity|lia|reflexivity].
Defined.

Lemma rollbacks_and_commit_witness :
  S (count is_Rollback
       (log (snd (with_transaction.wrapper 3 no_task_fails None (UserId 0)
                    busy_then_done post_request sample_pool initial))))
  = 2%nat.
Proof.
  etransitivity.
  - apply (@rollbacks_and_commit 3 no_task_fails None (UserId 0)
             busy_then_done post_request sample_pool (Some 0%Z));
      [reflexivity|lia].
  - reflexivity.
Defined.

Lemma transient_failures_then_success_witness :
  fst (with_transaction.wrapper 2 no_task_fails None UserOfRequest
         busy_then_done session_request sample_pool initial)
  = Returned (Object "done").
Proof.
  rewrite (@transient_failures_then_success 2 no_task_fails None
             UserOfRequest busy_then_done session_request sample_pool
             (Some 123%Z) 1%nat [1%Z; 2%Z; 3%Z] (Object "done")).
  - reflexivity.
  - reflexivity.
  - lia.
  - intros j Hj. assert (j = 0%nat) as -> by lia.
    exists (DatabaseOperationalError "database is locked").
    split; reflexivity.
  - reflexivity.
  - reflexivity.
  - reflexivity.
Defined.

Lemma failing_task_stops_the_draining_witness :
  fst (with_transaction.wrapper 2 task_two_fails None (UserId 0)
         busy_then_done post_request sample_pool initial)
  = Raised (ExceptionOther "TaskError").
Proof.
  rewrite (@failing_task_stops_the_draining 2 task_two_fails None (UserId 0)
             busy_then_done post_request sample_pool (Some 0%Z) 1%nat
             [1%Z] [3%Z] 2%Z (ExceptionOther "TaskError") (Object "done")).
  - reflexivity.
  - reflexivity.
  - lia.
  - intros j Hj. assert (j = 0%nat) as -> by lia.
    exists (DatabaseOperationalError "database is locked").
    split; reflexivity.
  - reflexivity.
  - reflexivity.
  - intros x [<-|[]]. reflexivity.
  - reflexivity.
Defined.

(** Somebody whose login is refused for the time being is answered 429
    by a handler that runs as the user of the request, and the handler
    is not called. *)
Lemma failed_read_skips_the_loop_witness :
  with_transaction.wrapper 2 no_task_fails None UserOfRequest busy_then_done
    limited_request sample_pool initial
  = (Raised (HTTPException 429 None), initial).
Proof.
  apply (@failed_read_skips_the_loop 2 no_task_fails None UserOfRequest
           busy_then_done limited_request sample_pool
           (HTTPException 429 None)).
  right. split; [now eexists|]. split; reflexivity.
Defined.

(** ** with_pool, whatever the wrapped function does *)

Lemma with_pool_around_handler (database_list : list string)
    (func : handler) (request : Request) (database_name : string) :
  with_pool_around database_list (fun _ _ => call_func func) request
    database_name
  = with_pool.wrapper database_list func request database_name.
Proof. reflexivity. Qed.

(** What [with_pool] does before it calls the wrapped function. *)
Lemma with_pool_around_eq (database_list : list string)
    (inner : Request -> Pool -> M value) (request : Request)
    (database_name : string) (w : world) :
  with_pool_around database_list inner request database_name w
  = let w0 := pool_initialised database_list database_name w in
    match inner request (mkPool database_name) w0 with
    | (Returned v, w1) => (Returned v, w1)
    | (Raised e, w1) =>
        let w2 ev := {| log := log w1 ++ [ev]; tasks := tasks w1;
                        ncalls := ncalls w1 |} in
        if is_HTTPException e then (Raised e, w2 LogDebug)
        else if is_UserError e || is_UserWarning e then
          (if is_rpc request then Raised e
           else Raised (HTTPException HTTPStatus.BAD_REQUEST (Some e)),
           w2 LogDebug)
        else
          (if is_rpc request then Raised e
           else Raised (HTTPException HTTPStatus.INTERNAL_SERVER_ERROR
                          (Some e)),
           w2 LogError)
    end.
Proof.
  unfold with_pool_around, pool_initialised, bind, try_except, with_, abort,
    raise, ret, transaction_start, transaction_stop, emit.
  destruct (existsb (String.eqb database_name) database_list); cbn;
    repeat rewrite <- app_assoc; cbn;
    destruct (inner request (mkPool database_name) _) as [[v|e] w1];
    try reflexivity;
    destruct (is_HTTPException e); try reflexivity;
    destruct (is_UserError e || is_UserWarning e); cbn;
    destruct (is_rpc request); reflexivity.
Qed.

(** X9. What the wrapped function raises on a request that is not an
    RPC call comes out of [with_pool] as an [HTTPException]: itself if
    it is one, else a 400 for a [UserError] or a [UserWarning] and a 500
    for anything else, the exception being the description. The wrapped
    function may be a handler or the wrapper of another decorator, and
    the call may start in any world. *)
Theorem with_pool_plain_request_raises_http_only
    (database_list : list string) (inner : Request -> Pool -> M value)
    (request : Request) (database_name : string) (w : world) (e0 : exn) :
  is_rpc request = false ->
  fst (inner request (mkPool database_name)
         (pool_initialised database_list database_name w))
  = Raised e0 ->
  exists e,
    fst (with_pool_around database_list inner request database_name w)
    = Raised e
    /\ is_HTTPException e = true
    /\ e = if is_HTTPException e0 then e0
           else HTTPException
                  (if is_UserError e0 || is_UserWarning e0
                   then HTTPStatus.BAD_REQUEST
                   else HTTPStatus.INTERNAL_SERVER_ERROR)
                  (Some e0).
Proof.
  intros Hrpc Hinner. rewrite with_pool_around_eq. cbv zeta.
  destruct (inner request (mkPool database_name) _) as [[v|e1] w1];
    cbn [fst] in Hinner; [discriminate|].
  injection Hinner as ->. rewrite Hrpc.
  destruct (is_HTTPException e0) eqn:Hhttp;
    [|destruct (is_UserError e0 || is_UserWarning e0)];
    cbn [fst]; eexists; repeat split; assumption || reflexivity.
Qed.

Lemma with_pool_plain_request_raises_http_only_witness :
  exists e,
    fst (with_pool_around ["tryton"%string] (fun _ _ => call_func broken)
           get_request "tryton" initial)
    = Raised e
    /\ is_HTTPException e = true
    /\ e = HTTPException 500 (Some (ExceptionOther "ZeroDivisionError")).
Proof.
  apply (@with_pool_plain_request_raises_http_only ["tryton"%string]
           (fun _ _ => call_func broken) get_request "tryton" initial
           (ExceptionOther "ZeroDivisionError"));
    reflexivity.
Defined.

(** X10. The log of [with_pool]: the pool is initialised, in a read-only
    transaction of user 0, exactly when the database is not in the list
    of databases, and before the wrapped function is called; that
    function is called once; a failure is logged once, at debug level
    for an [HTTPException], a [UserError] or a [UserWarning] and at error
    level for anything else; a result is not logged. *)
Theorem with_pool_log
    (database_list : list string) (func : handler) (request : Request)
    (database_name : string) :
  log (snd (with_pool.wrapper database_list func request database_name
              initial))
  = (if existsb (String.eqb database_name) database_list then []
     else [TransactionStart database_name (Some 0%Z) true;
           PoolInit database_name; TransactionStop])
    ++ CallFunc
       :: match snd (func 0%nat) with
          | Returned _ => []
          | Raised e =>
              if is_HTTPException e || is_UserError e || is_UserWarning e
              then [LogDebug] else [LogError]
          end.
Proof.
  rewrite <- with_pool_around_handler, with_pool_around_eq. cbv zeta.
  unfold call_func, pool_initialised.
  destruct (existsb (String.eqb database_name) database_list);
    cbn [ncalls log initial app];
    destruct (func 0%nat) as [queued [v|e]]; cbn [fst snd log];
    try reflexivity;
    destruct (is_HTTPException e); cbn [orb fst snd log];
    try reflexivity;
    destruct (is_UserError e || is_UserWarning e); reflexivity.
Qed.

(** X11. [with_pool] lets a result and an [HTTPException] through
    untouched, for an RPC call and for a plain request alike. *)
Theorem with_pool_is_transparent
    (database_list : list string) (func : handler) (request : Request)
    (database_name : string) (queued : list task_id) :
  (forall v, func 0%nat = (queued, Returned v) ->
     fst (with_pool.wrapper database_list func request database_name
            initial) = Returned v)
  /\ (forall e, func 0%nat = (queued, Raised e) ->
        is_HTTPException e = true ->
        fst (with_pool.wrapper database_list func request database_name
               initial) = Raised e).
Proof.
  rewrite <- with_pool_around_handler, with_pool_around_eq. cbv zeta.
  unfold call_func, pool_initialised.
  destruct (existsb (String.eqb database_name) database_list);
    cbn [ncalls log initial app];
    (split; [intros v Hf|intros e Hf Hhttp]); rewrite Hf; cbn [fst snd];
    try reflexivity; rewrite Hhttp; reflexivity.
Qed.

Lemma with_pool_is_transparent_witness :
  fst (with_pool.wrapper [] (fun _ => ([], Returned (Object "ok")))
         rpc_request "tryton" initial) = Returned (Object "ok")
  /\ fst (with_pool.wrapper []
            (fun _ => ([], Raised (HTTPException 404 None)))
            get_request "tryton" initial)
     = Raised (HTTPException 404 None).
Proof.
  split.
  - apply (proj1 (@with_pool_is_transparent []
                    (fun _ => ([], Returned (Object "ok")))
                    rpc_request "tryton" [])). reflexivity.
  - apply (proj2 (@with_pool_is_transparent []
                    (fun _ => ([], Raised (HTTPException 404 None)))
                    get_request "tryton" [])); reflexivity.
Defined.

(** ** with_pool around with_transaction *)

Section Stacked.
Variable database_list : list string.
Variable retry : Z.
Variable run_task : task_id -> option exn.
Variable readonly : option bool.
Variable user : user_arg.
Variable func : handler.
Variable request : Request.
Variable database_name : string.

Local Abbreviation stacked :=
  (with_pool_around database_list
     (with_transaction.wrapper retry run_task readonly user func)
     request database_name initial).
Local Abbreviation ro := (with_transaction.readonly_of readonly request).

(** The stack ends with a call [n] of the handler that raises. *)
Lemma stacked_raises (user_ : option Z) :
  with_transaction.transaction_user user request = Returned user_ ->
  (0 <= retry)%Z ->
  exists (n : nat),
    (forall j, (j < n)%nat -> transient_failure (func j))
    /\ forall e,
         snd (func n) = Raised e ->
         (is_DatabaseOperationalError e = true ->
          Z.of_nat n = retry \/ ro = true)
         /\ ncalls (snd stacked) = S n
         /\ (is_HTTPException e = false ->
             fst stacked
             = if is_rpc request then Raised e
               else Raised (HTTPException
                              (if is_UserError e || is_UserWarning e
                               then HTTPStatus.BAD_REQUEST
                               else HTTPStatus.INTERNAL_SERVER_ERROR)
                              (Some e)))
         /\ count is_Commit (log (snd stacked)) = 0%nat.
Proof.
  intros Hent Hretry. rewrite with_pool_around_eq. cbv zeta.
  set (w0 := pool_initialised database_list database_name initial).
  assert (Hcalls0 : ncalls w0 = 0%nat)
    by (subst w0; unfold pool_initialised; now destruct (existsb _ _)).
  assert (Hlog0 : count is_Commit (log w0) = 0%nat)
    by (subst w0; unfold pool_initialised; now destruct (existsb _ _)).
  rewrite (@wrapper_eq retry run_task readonly user func request
             (mkPool database_name) w0), Hent.
  destruct (@loop_spec retry run_task readonly func request
              (mkPool database_name) user_ (Z.to_nat retry) w0)
    as (n & _ & _ & Hn & Htr & _ & Hlast); [rewrite Hcalls0; lia|].
  rewrite Hcalls0 in *. replace (retry - Z.of_nat 0)%Z with retry in * by lia.
  exists n. split; [intros j Hj; apply Htr; lia|].
  intros e He. rewrite He in Hlast. destruct Hlast as (Hfst & Hlog & Hwhy).
  destruct (for_ (range_down retry) _ w0) as [[[|a]|e'] w1];
    cbn [fst snd] in *; try discriminate.
  injection Hfst as ->. split; [exact Hwhy|].
  assert (Hcommit : count is_Commit (log w1) = 0%nat).
  { rewrite Hlog, !count_app, Hlog0.
    rewrite (@count_retried retry readonly request
               (mkPool database_name) user_) by reflexivity.
    rewrite (@count_pre retry) by reflexivity. cbn. lia. }
  destruct (is_HTTPException e) eqn:Hhttp; cbn [fst snd ncalls log].
  - repeat split; [exact Hn|discriminate|].
    now rewrite count_app, Hcommit.
  - destruct (is_UserError e || is_UserWarning e); cbn [fst snd ncalls log];
      (split; [exact Hn|]); (split; [reflexivity|]);
      now rewrite count_app, Hcommit.
Qed.

(** X12. The two decorators stacked, [with_pool] outside: once the
    context and the user of the transaction are read, when every call of
    the handler fails transiently on a read-write transaction, the
    handler is called [retry + 1] times, and then a plain request is
    answered 500, the last failure being the description, while an RPC
    call gets that failure itself. *)
Theorem stacked_transient_failure (user_ : option Z) :
  with_transaction.transaction_user user request = Returned user_ ->
  (0 <= retry)%Z ->
  ro = false ->
  (forall n, transient_failure (func n)) ->
  exists e,
    snd (func (Z.to_nat retry)) = Raised e
    /\ Z.of_nat (ncalls (snd stacked)) = (retry + 1)%Z
    /\ fst stacked
       = if is_rpc request then Raised e
         else Raised (HTTPException HTTPStatus.INTERNAL_SERVER_ERROR
                        (Some e)).
Proof.
  intros Hent Hretry Hro Hall.
  destruct (stacked_raises Hent Hretry) as (n & _ & Hlast).
  destruct (Hall n) as (e & He & Htransient).
  destruct (Hlast e He) as (Hwhy & Hcalls & Hfst & _).
  destruct (Hwhy Htransient) as [Hn|Hcontra]; [|congruence].
  replace (Z.to_nat retry) with n by lia.
  exists e. split; [exact He|]. split; [lia|].
  rewrite Hfst by (now destruct e).
  now destruct e.
Qed.

(** X13. The two decorators stacked: once the context and the user of
    the transaction are read, when the first call of the handler raises
    an exception that is neither a transient database failure nor an
    [HTTPException], the handler is not called again and nothing is
    committed; a plain request is answered 400 for a [UserError] or a
    [UserWarning] and 500 otherwise, and an RPC call gets the exception
    itself. *)
Theorem stacked_failure_is_not_retried
    (user_ : option Z) (queued : list task_id) (e : exn) :
  with_transaction.transaction_user user request = Returned user_ ->
  (0 <= retry)%Z ->
  func 0%nat = (queued, Raised e) ->
  is_DatabaseOperationalError e = false ->
  is_HTTPException e = false ->
  ncalls (snd stacked) = 1%nat
  /\ count is_Commit (log (snd stacked)) = 0%nat
  /\ fst stacked
     = if is_rpc request then Raised e
       else Raised (HTTPException
                      (if is_UserError e || is_UserWarning e
                       then HTTPStatus.BAD_REQUEST
                       else HTTPStatus.INTERNAL_SERVER_ERROR)
                      (Some e)).
Proof.
  intros Hent Hretry Hf He Hhttp.
  destruct (stacked_raises Hent Hretry) as (n & Htr & Hlast).
  assert (n = 0%nat) as ->.
  { destruct n as [|n]; [reflexivity|].
    destruct (Htr 0%nat) as (e' & He' & Htransient); [lia|].
    rewrite Hf in He'. cbn in He'. congruence. }
  destruct (Hlast e) as (_ & Hcalls & Hfst & Hcommit); [now rewrite Hf|].
  split; [exact Hcalls|]. split; [exact Hcommit|]. now apply Hfst.
Qed.
End Stacked.

Lemma stacked_transient_failure_witness :
  fst (with_pool_around ["tryton"%string]
         (with_transaction.wrapper 2 no_task_fails None UserOfRequest
            always_busy)
         session_request "tryton" initial)
  = Raised (HTTPException 500
              (Some (DatabaseOperationalError "database is locked"))).
Proof.
  destruct (@stacked_transient_failure ["tryton"%string] 2 no_task_fails
              None UserOfRequest always_busy session_request "tryton"
              (Some 123%Z))
    as (e & He & _ & Hfst).
  - reflexivity.
  - lia.
  - reflexivity.
  - intros n. exists (DatabaseOperationalError "database is locked").
    split; reflexivity.
  - rewrite Hfst. cbn in He. injection He as <-. reflexivity.
Defined.

Lemma stacked_failure_is_not_retried_witness :
  fst (with_pool_around []
         (with_transaction.wrapper 2 no_task_fails None (UserId 0) invalid)
         post_request "tryton" initial)
  = Raised (HTTPException 400 (Some (UserError "The code is required."))).
Proof.
  destruct (@stacked_failure_is_not_retried [] 2 no_task_fails None
              (UserId 0) invalid post_request "tryton" (Some 0%Z) []
              (UserError "The code is required."))
    as (_ & _ & Hfst).
  - reflexivity.
  - lia.
  - reflexivity.
  - reflexivity.
  - reflexivity.
  - exact Hfst.
Defined.

(** ** Splitting on whitespace *)

Section SplitFacts.
Variable A : Type.
Variable isspace : A -> bool.

Lemma split_ws_length (maxsplit : nat) : forall s : list A,
  (List.length (split_ws isspace maxsplit s) <= S maxsplit)%nat.
Proof.
  induction maxsplit as [|m IH]; intros s; cbn;
    destruct (lstrip isspace s) as [|c r]; cbn; try lia.
  destruct (if isspace c then _ else _) as [w t]. cbn.
  specialize (IH t). lia.
Qed.

Lemma lstrip_spaces (ws s : list A) :
  forallb isspace ws = true ->
  lstrip isspace (ws ++ s) = lstrip isspace s.
Proof.
  induction ws as [|c ws IH]; cbn; [reflexivity|].
  intros H. apply andb_prop in H. destruct H as [-> H]. now apply IH.
Qed.

Lemma lstrip_word (c : A) (s : list A) :
  isspace c = false -> lstrip isspace (c :: s) = c :: s.
Proof. intros H. cbn. now rewrite H. Qed.

Lemma lstrip_blank (ws : list A) :
  forallb isspace ws = true -> lstrip isspace ws = [].
Proof.
  intros H. rewrite <- (app_nil_r ws). now rewrite lstrip_spaces.
Qed.

Lemma span_word_all (word : list A) :
  forallb (fun c => negb (isspace c)) word = true ->
  span_word isspace word = (word, []).
Proof.
  induction word as [|c word IH]; cbn; [reflexivity|].
  intros H. apply andb_prop in H. destruct H as [Hc H].
  apply negb_true_iff in Hc. now rewrite Hc, IH.
Qed.

Lemma span_word_stops (word : list A) (c : A) (rest : list A) :
  forallb (fun c => negb (isspace c)) word = true ->
  isspace c = true ->
  span_word isspace (word ++ c :: rest) = (word, c :: rest).
Proof.
  intros Hword Hc. induction word as [|d word IH]; cbn.
  - now rewrite Hc.
  - cbn in Hword. apply andb_prop in Hword. destruct Hword as [Hd Hword].
    apply negb_true_iff in Hd. now rewrite Hd, IH.
Qed.

(** A word, whitespace, and a remainder that starts with a word: the
    split at the first whitespace keeps the remainder as it is. *)
Lemma split_ws_two (word ws : list A) (c : A) (rest : list A) :
  word <> [] ->
  forallb (fun c => negb (isspace c)) word = true ->
  ws <> [] ->
  forallb isspace ws = true ->
  isspace c = false ->
  split_ws isspace 1 (word ++ ws ++ c :: rest) = [word; c :: rest].
Proof.
  intros Hword Hnospace Hws Hspace Hc.
  destruct word as [|d word]; [contradiction|].
  destruct ws as [|s ws]; [contradiction|].
  cbn in Hnospace, Hspace.
  apply andb_prop in Hnospace. destruct Hnospace as [Hd Hnospace].
  apply andb_prop in Hspace. destruct Hspace as [Hs Hspace].
  apply negb_true_iff in Hd.
  cbn [split_ws app]. rewrite (lstrip_word _ Hd).
  change (d :: word ++ s :: ws ++ c :: rest)
    with ((d :: word) ++ s :: ws ++ c :: rest).
  rewrite span_word_stops; [|cbn; now rewrite Hd|exact Hs].
  change (s :: ws ++ c :: rest) with ((s :: ws) ++ c :: rest).
  rewrite lstrip_spaces by (cbn; now rewrite Hs).
  now rewrite (lstrip_word _ Hc).
Qed.

(** Nothing but whitespace splits into nothing, a single word into
    itself. *)
Lemma split_ws_short (s : list A) :
  forallb isspace s = true
  \/ forallb (fun c => negb (isspace c)) s = true ->
  (List.length (split_ws isspace 1 s) < 2)%nat.
Proof.
  intros [Hblank|Hword].
  - cbn. rewrite (lstrip_blank _ Hblank). cbn. lia.
  - destruct s as [|c s]; [cbn; lia|].
    pose proof Hword as Hc. cbn in Hc. apply andb_prop in Hc.
    destruct Hc as [Hc _]. apply negb_true_iff in Hc.
    cbn [split_ws]. rewrite (lstrip_word _ Hc), (span_word_all _ Hword).
    cbn. lia.
Qed.
End SplitFacts.

(** ** user_application, whatever the request is *)

Section Bearer.
Variable check : str -> string -> option Application.
Variable dumps : value -> outcome string.
Variable name : string.
Variable json : bool.
Variable func : handler.

Local Abbreviation wrapper :=
  (user_application.wrapper check dumps name json func).

(** The wrapper in closed form. *)
Lemma user_application_eq (request : Request) (w : world) :
  wrapper request w =
  match headers_get (headers request) "Authorization" with
  | None => (Raised (KeyError "Authorization"), w)
  | Some authorization =>
      match str_split_ws 1 authorization with
      | [auth_type; auth_info] =>
          if str_eqb (str_lower auth_type) (U "bearer") then
            match check auth_info name with
            | None =>
                (Raised (HTTPException HTTPStatus.FORBIDDEN None),
                 {| log := log w ++ [CheckApplication auth_info name];
                    tasks := tasks w; ncalls := ncalls w |})
            | Some application =>
                (match snd (func (ncalls w)) with
                 | Returned response =>
                     if negb (is_Response response) && json
                     then match dumps response with
                          | Returned body =>
                              Returned (Response body "application/json")
                          | Raised e => Raised e
                          end
                     else Returned response
                 | Raised e => Raised e
                 end,
                 {| log := log w
                           ++ [CheckApplication auth_info name;
                               SetUser (application_user application);
                               CheckAccessEnter; CallFunc; CheckAccessExit;
                               ResetUser];
                    tasks := tasks w ++ fst (func (ncalls w));
                    ncalls := S (ncalls w) |})
            end
          else (Raised (HTTPException HTTPStatus.FORBIDDEN None), w)
      | _ => (Raised (HTTPException HTTPStatus.UNAUTHORIZED None), w)
      end
  end.
Proof.
  unfold user_application.wrapper, headers_getitem, bind, try_except, lift,
    user_application.UserApplication_check, with_, call_func, emit, ret,
    abort, raise.
  destruct (headers_get (headers request) "Authorization")
    as [authorization|]; [|reflexivity].
  cbn. unfold unpack2.
  destruct (str_split_ws 1 authorization) as [|a [|b [|c l]]];
    try reflexivity.
  cbn [obind fst snd is_ValueError].
  destruct (str_eqb (str_lower a) (U "bearer")); [|reflexivity].
  cbn. destruct (check b name) as [application|]; [|reflexivity].
  cbn. destruct (func (ncalls w)) as [queued [response|e]]; cbn;
    repeat rewrite <- app_assoc; cbn;
    [destruct (negb (is_Response response) && json);
     [destruct (dumps response)|]|]; reflexivity.
Qed.

(** X14. A header that is there but holds nothing, only whitespace, or
    a single word is answered 401, with no lookup of a key and no call
    of the handler. *)
Theorem user_application_unauthorized
    (request : Request) (authorization : str) :
  headers_get (headers request) "Authorization" = Some authorization ->
  forallb str_isspace authorization = true
  \/ forallb (fun c => negb (str_isspace c)) authorization = true ->
  wrapper request initial
  = (Raised (HTTPException HTTPStatus.UNAUTHORIZED None), initial).
Proof.
  intros Hget Hshort. rewrite user_application_eq, Hget.
  pose proof (@split_ws_short _ str_isspace authorization Hshort) as Hlen.
  unfold str_split_ws.
  destruct (split_ws str_isspace 1 authorization) as [|a [|b [|c l]]];
    try reflexivity.
  cbn in Hlen. lia.
Qed.

(** X15. The handler is called only when every check has passed: if a
    call of the wrapper calls the handler, then the request has an
    Authorization header that splits into a scheme and a key, the scheme
    is [bearer] whatever its case, and the key is registered for the
    application; the handler is then called once, after one lookup,
    between the change of user and its undoing. *)
Theorem handler_called_only_when_accepted (request : Request) :
  (1 <= ncalls (snd (wrapper request initial)))%nat ->
  exists (authorization auth_type auth_info : str)
         (application : Application),
    headers_get (headers request) "Authorization" = Some authorization
    /\ str_split_ws 1 authorization = [auth_type; auth_info]
    /\ str_lower auth_type = U "bearer"
    /\ check auth_info name = Some application
    /\ ncalls (snd (wrapper request initial)) = 1%nat
    /\ log (snd (wrapper request initial))
       = [CheckApplication auth_info name;
          SetUser (application_user application); CheckAccessEnter;
          CallFunc; CheckAccessExit; ResetUser].
Proof.
  rewrite user_application_eq.
  destruct (headers_get (headers request) "Authorization")
    as [authorization|]; [|cbn; lia].
  destruct (str_split_ws 1 authorization) as [|a [|b [|c l]]] eqn:Hsplit;
    try (cbn; lia).
  unfold str_eqb.
  destruct (list_eq_dec N.eq_dec (str_lower a) (U "bearer")) as [Hscheme|];
    [|cbn; lia].
  destruct (check b name) as [application|] eqn:Hcheck; [|cbn; lia].
  intros _. exists authorization, a, b, application.
  repeat (split; [reflexivity || assumption|]). reflexivity.
Qed.

(** X16. What an accepted request gets: the response of the handler
    itself if it is a [Response] or if JSON was not asked for; else what
    [json.dumps] makes of what the handler returned, as the body of a
    [Response] of content type [application/json], and when [json.dumps]
    raises, on a value it cannot serialise, the wrapper raises that. *)
Theorem accepted_response
    (request : Request) (authorization auth_type auth_info : str)
    (application : Application) (queued : list task_id) (response : value) :
  headers_get (headers request) "Authorization" = Some authorization ->
  str_split_ws 1 authorization = [auth_type; auth_info] ->
  str_lower auth_type = U "bearer" ->
  check auth_info name = Some application ->
  func 0%nat = (queued, Returned response) ->
  fst (wrapper request initial)
  = match response with
    | Response _ _ => Returned response
    | _ =>
        if json
        then match dumps response with
             | Returned body => Returned (Response body "application/json")
             | Raised e => Raised e
             end
        else Returned response
    end.
Proof.
  intros Hget Hsplit Hscheme Hcheck Hf.
  rewrite user_application_eq, Hget, Hsplit, Hscheme, str_eqb_refl, Hcheck.
  cbn [ncalls initial fst]. rewrite Hf. cbn [snd].
  now destruct response, json.
Qed.

(** X17. When the handler of an accepted request raises, the exception
    comes out as it is, with no JSON body made of it, and the change of
    user and the access check are undone all the same. *)
Theorem accepted_handler_failure
    (request : Request) (authorization auth_type auth_info : str)
    (application : Application) (queued : list task_id) (e : exn) :
  headers_get (headers request) "Authorization" = Some authorization ->
  str_split_ws 1 authorization = [auth_type; auth_info] ->
  str_lower auth_type = U "bearer" ->
  check auth_info name = Some application ->
  func 0%nat = (queued, Raised e) ->
  fst (wrapper request initial) = Raised e
  /\ exists before,
       log (snd (wrapper request initial))
       = before ++ [CallFunc; CheckAccessExit; ResetUser].
Proof.
  intros Hget Hsplit Hscheme Hcheck Hf.
  rewrite user_application_eq, Hget, Hsplit, Hscheme, str_eqb_refl, Hcheck.
  cbn [ncalls initial fst snd log app]. rewrite Hf. cbn [snd].
  split; [reflexivity|].
  now exists [CheckApplication auth_info name;
              SetUser (application_user application); CheckAccessEnter].
Qed.

(** X18. The key that is looked up is all that follows the first run of
    whitespace of the header, as it is: for a header made of the word
    [scheme], whitespace, and a [key] that starts with a character that
    is not whitespace, with [scheme] lowering to [bearer], the first
    thing the wrapper does is to look [key] up. *)
Theorem bearer_key_is_taken_verbatim
    (request : Request) (scheme ws : str) (c : N) (rest : str) :
  headers_get (headers request) "Authorization"
  = Some (scheme ++ ws ++ c :: rest) ->
  scheme <> [] ->
  forallb (fun c => negb (str_isspace c)) scheme = true ->
  ws <> [] ->
  forallb str_isspace ws = true ->
  str_isspace c = false ->
  str_lower scheme = U "bearer" ->
  hd_error (log (snd (wrapper request initial)))
  = Some (CheckApplication (c :: rest) name).
Proof.
  intros Hget Hscheme Hword Hws Hspace Hc Hbearer.
  rewrite user_application_eq, Hget. unfold str_split_ws.
  rewrite (@split_ws_two _ str_isspace scheme ws c rest Hscheme Hword Hws
             Hspace Hc).
  rewrite Hbearer, str_eqb_refl.
  now destruct (check (c :: rest) name).
Qed.
End Bearer.

Lemma user_application_unauthorized_witness :
  user_application.wrapper no_application to_json "shop" true broken
    (mkRequest "GET" None [("Authorization"%string, U "Bearer")]
       (Returned local_context) (Returned None))
    initial
  = (Raised (HTTPException 401 None), initial).
Proof.
  apply (@user_application_unauthorized no_application to_json "shop" true
           broken
           (mkRequest "GET" None [("Authorization"%string, U "Bearer")]
              (Returned local_context) (Returned None))
           (U "Bearer")); [reflexivity|].
  right. reflexivity.
Defined.

Lemma handler_called_only_when_accepted_witness :
  exists (auth_info : str) (application : Application),
    log (snd (user_application.wrapper
                (fun _ _ => Some (mkApplication 7)) to_json "shop" true
                broken bearer_request initial))
    = [CheckApplication auth_info "shop";
       SetUser (application_user application); CheckAccessEnter; CallFunc;
       CheckAccessExit; ResetUser].
Proof.
  destruct (@handler_called_only_when_accepted
              (fun _ _ => Some (mkApplication 7)) to_json "shop" true broken
              bearer_request)
    as (authorization & auth_type & auth_info & application & _ & _ & _ & _
        & _ & Hlog).
  - vm_compute. lia.
  - exists auth_info, application. exact Hlog.
Defined.

Lemma accepted_response_witness :
  fst (user_application.wrapper (fun _ _ => Some (mkApplication 7)) to_json
         "shop" true (fun _ => ([], Returned (Object "rows")))
         bearer_request initial)
  = Returned (Response "null" "application/json")
  /\ fst (user_application.wrapper (fun _ _ => Some (mkApplication 7))
            not_serializable "shop" true
            (fun _ => ([], Returned (Object "rows"))) bearer_request initial)
     = Raised (ExceptionOther "TypeError").
Proof.
  split.
  - apply (@accepted_response (fun _ _ => Some (mkApplication 7)) to_json
             "shop" true (fun _ => ([], Returned (Object "rows")))
             bearer_request (U "Bearer s3cr3t") (U "Bearer") (U "s3cr3t")
             (mkApplication 7) [] (Object "rows")); reflexivity.
  - apply (@accepted_response (fun _ _ => Some (mkApplication 7))
             not_serializable "shop" true
             (fun _ => ([], Returned (Object "rows")))
             bearer_request (U "Bearer s3cr3t") (U "Bearer") (U "s3cr3t")
             (mkApplication 7) [] (Object "rows")); reflexivity.
Defined.

Lemma accepted_handler_failure_witness :
  fst (user_application.wrapper (fun _ _ => Some (mkApplication 7)) to_json
         "shop" true broken bearer_request initial)
  = Raised (ExceptionOther "ZeroDivisionError").
Proof.
  apply (@accepted_handler_failure (fun _ _ => Some (mkApplication 7))
           to_json "shop" true broken bearer_request (U "Bearer s3cr3t")
           (U "Bearer") (U "s3cr3t") (mkApplication 7) [4%Z]
           (ExceptionOther "ZeroDivisionError")); reflexivity.
Defined.

Lemma bearer_key_is_taken_verbatim_witness :
  hd_error
    (log (snd (user_application.wrapper no_application to_json "shop" true
                 broken
                 (mkRequest "GET" None
                    [("Authorization"%string, U "BEARER   a key ")]
                    (Returned local_context) (Returned None))
                 initial)))
  = Some (CheckApplication (U "a key ") "shop").
Proof.
  apply (@bearer_key_is_taken_verbatim no_application to_json "shop" true
           broken
           (mkRequest "GET" None
              [("Authorization"%string, U "BEARER   a key ")]
              (Returned local_context) (Returned None))
           (U "BEARER") (U "   ") 97%N (U " key "));
    try reflexivity; discriminate.
Defined.

(** ** The credential parser, read both ways *)

Lemma break_at_some (sep : byte) : forall s w t : bytes,
  break_at sep s = Some (w, t) -> s = w ++ sep :: t /\ ~ In sep w.
Proof.
  induction s as [|b r IH]; intros w t; cbn; [discriminate|].
  destruct (Byte.eqb b sep) eqn:E.
  - apply byte_dec_bl in E. subst b. intros H. inversion H; subst.
    split; [reflexivity|intros []].
  - destruct (break_at sep r) as [[w' t']|]; [|discriminate].
    intros H. inversion H; subst. destruct (IH w' t eq_refl) as [-> Hw].
    split; [reflexivity|]. intros [->|Hin]; [|contradiction].
    now rewrite (byte_dec_lb eq_refl) in E.
Qed.

Lemma break_at_none (sep : byte) : forall s : bytes,
  break_at sep s = None <-> ~ In sep s.
Proof.
  induction s as [|b r IH]; cbn; [tauto|].
  destruct (Byte.eqb b sep) eqn:E.
  - apply byte_dec_bl in E. subst b. split; [discriminate|].
    intros H. contradiction H. now left.
  - apply eqb_false in E. destruct (break_at sep r) as [[w t]|].
    + split; [discriminate|]. intros H. exfalso.
      assert (Hr : ~ In sep r) by tauto. apply IH in Hr. discriminate.
    + split; [|reflexivity]. intros _ [->|Hin]; [congruence|].
      now apply IH in Hin.
Qed.

Lemma break_at_app (sep : byte) (w t : bytes) :
  ~ In sep w -> break_at sep (w ++ sep :: t) = Some (w, t).
Proof.
  induction w as [|b w IH]; cbn; intros Hw.
  - now rewrite (byte_dec_lb eq_refl).
  - destruct (Byte.eqb b sep) eqn:E.
    + apply byte_dec_bl in E. subst b. contradiction Hw. now left.
    + rewrite IH; [reflexivity|]. intros Hin. apply Hw. now right.
Qed.

(** Three items out of [split(b':', 3)]: the payload has exactly two
    colons, and the items are what lies between them. *)
Lemma bytes_split_three (payload u n s : bytes) :
  bytes_split ":"%byte 3 payload = [u; n; s]
  <-> payload = u ++ ":"%byte :: n ++ ":"%byte :: s
      /\ ~ In ":"%byte u /\ ~ In ":"%byte n /\ ~ In ":"%byte s.
Proof.
  split.
  - cbn [bytes_split].
    destruct (break_at ":"%byte payload) as [[w1 t1]|] eqn:H1;
      [|discriminate].
    destruct (break_at ":"%byte t1) as [[w2 t2]|] eqn:H2; [|discriminate].
    destruct (break_at ":"%byte t2) as [[w3 t3]|] eqn:H3; [discriminate|].
    intros H. inversion H; subst.
    apply break_at_some in H1, H2. apply break_at_none in H3.
    destruct H1 as [-> Hu], H2 as [-> Hn]. tauto.
  - intros (-> & Hu & Hn & Hs). cbn [bytes_split].
    rewrite (@break_at_app ":"%byte u _ Hu).
    rewrite (@break_at_app ":"%byte n _ Hn).
    apply break_at_none in Hs. now rewrite Hs.
Qed.

Lemma bytes_eqb_eq (a b : bytes) : bytes_eqb a b = true <-> a = b.
Proof.
  unfold bytes_eqb. destruct (list_eq_dec byte_eq_dec a b); split;
    congruence.
Qed.

(** A header that splits into a scheme and an info. *)
Lemma parse_split (value : header_value) (raw auth_type auth_info : bytes) :
  as_bytes value = Returned raw ->
  bytes_split_ws 1 raw = [auth_type; auth_info] ->
  parse_authorization_header value =
  if bytes_eqb (bytes_lower auth_type) (B "session") then
    match session_fields auth_info with
    | Raised _ => Returned None
    | Returned (username, userid, session) =>
        Returned (Some {| auth_type_of := U "session";
                          username := decode_latin1 username;
                          userid := userid;
                          session := decode_latin1 session |})
    end
  else Returned None.
Proof.
  intros Hraw Hsplit. unfold parse_authorization_header.
  assert (Hfalsy : falsy value = false).
  { destruct value as [|[|c s]|[|b l]]; try reflexivity;
      cbn in Hraw; inversion Hraw; subst; discriminate Hsplit. }
  rewrite Hfalsy, Hraw. unfold split_scheme. rewrite Hsplit.
  cbn [unpack2 obind fst snd].
  destruct (bytes_eqb (bytes_lower auth_type) (B "session"));
    [|reflexivity].
  destruct (session_fields auth_info) as [[[u i] s]|e']; reflexivity.
Qed.

(** X19. A header of another scheme than [session], [Basic] or [Bearer]
    say, gives no credential: it is left to werkzeug. *)
Theorem other_scheme_gives_no_credential
    (value : header_value) (raw auth_type auth_info : bytes) :
  as_bytes value = Returned raw ->
  bytes_split_ws 1 raw = [auth_type; auth_info] ->
  bytes_lower auth_type <> B "session" ->
  parse_authorization_header value = Returned None.
Proof.
  intros Hraw Hsplit Hscheme. rewrite (parse_split _ Hraw Hsplit).
  destruct (bytes_eqb (bytes_lower auth_type) (B "session")) eqn:E;
    [|reflexivity].
  now apply bytes_eqb_eq in E.
Qed.

Lemma other_scheme_gives_no_credential_witness :
  parse_authorization_header (PyStr (U "Bearer s3cr3t")) = Returned None.
Proof.
  apply (@other_scheme_gives_no_credential (PyStr (U "Bearer s3cr3t"))
           (B "Bearer s3cr3t") (B "Bearer") (B "s3cr3t"));
    try reflexivity.
  intros H. discriminate H.
Defined.

(** X20. A credential is returned only for a header whose scheme lowers
    to [session] and whose info decodes to a payload with exactly two
    colons, [user:id:session], the id being an integer literal; the
    credential is of type [session] and holds the Latin-1 decoding of
    the user name and of the session, and the integer. *)
Theorem credential_comes_from_three_fields
    (value : header_value) (a : Authorization) :
  parse_authorization_header value = Returned (Some a) ->
  exists raw auth_type auth_info u n s : bytes,
    as_bytes value = Returned raw
    /\ bytes_split_ws 1 raw = [auth_type; auth_info]
    /\ bytes_lower auth_type = B "session"
    /\ a2b_base64 auth_info = Some (u ++ ":"%byte :: n ++ ":"%byte :: s)
    /\ ~ In ":"%byte u /\ ~ In ":"%byte n /\ ~ In ":"%byte s
    /\ int_of_bytes n = Some (userid a)
    /\ a = {| auth_type_of := U "session";
              username := decode_latin1 u;
              userid := userid a;
              session := decode_latin1 s |}.
Proof.
  unfold parse_authorization_header.
  destruct (falsy value); [discriminate|].
  destruct (as_bytes value) as [raw|e]; [|discriminate].
  unfold split_scheme, unpack2.
  destruct (bytes_split_ws 1 raw) as [|t [|i [|x l]]] eqn:Hsplit;
    cbn [obind fst snd is_ValueError]; try discriminate.
  destruct (bytes_eqb (bytes_lower t) (B "session")) eqn:Hscheme;
    [|discriminate].
  apply bytes_eqb_eq in Hscheme.
  unfold session_fields, b64decode, obind.
  destruct (a2b_base64 i) as [payload|] eqn:Hb64; [|discriminate].
  unfold unpack3.
  destruct (bytes_split ":"%byte 3 payload) as [|u [|n [|s [|y l]]]]
    eqn:Hfields; try discriminate.
  unfold int. destruct (int_of_bytes n) as [z|] eqn:Hint; [|discriminate].
  intros H. inversion H; subst. cbn [userid].
  apply bytes_split_three in Hfields.
  destruct Hfields as (-> & Hu & Hn & Hs).
  exists raw, t, i, u, n, s. repeat (split; [assumption || reflexivity|]).
  reflexivity.
Qed.

Lemma credential_comes_from_three_fields_witness :
  exists n : bytes, int_of_bytes n = Some 123%Z.
Proof.
  destruct (@credential_comes_from_three_fields
              (PyStr (U "session dXNlcjoxMjM6dG9rZW4="))
              {| auth_type_of := U "session"; username := U "user";
                 userid := 123; session := U "token" |})
    as (raw & t & i & u & n & s & _ & _ & _ & _ & _ & _ & _ & Hint & _).
  - vm_compute. reflexivity.
  - exists n. exact Hint.
Defined.

(** The credentials the parser returns are of type [session]. *)
Lemma parsed_type_is_session (value : header_value) (a : Authorization) :
  parse_authorization_header value = Returned (Some a) ->
  auth_type_of a = U "session".
Proof.
  unfold parse_authorization_header.
  destruct (falsy value); [discriminate|].
  destruct (as_bytes value) as [raw|e]; [|discriminate].
  destruct (split_scheme raw) as [[t i]|e];
    [|destruct (is_ValueError e); discriminate].
  destruct (bytes_eqb t (B "session")); [|discriminate].
  destruct (session_fields i) as [[[u n] s]|e]; [|discriminate].
  intros H. inversion H. reflexivity.
Qed.

(** X21. Conversely, a header whose scheme lowers to [session] and whose
    info decodes to [user:id:session], with no colon in the three fields
    and an id that [int] accepts (an integer literal of at most 4300
    digits), gives the credential of that user name, id and session. *)
Theorem three_fields_give_a_credential
    (value : header_value) (raw auth_type auth_info u n s : bytes) (z : Z) :
  as_bytes value = Returned raw ->
  bytes_split_ws 1 raw = [auth_type; auth_info] ->
  bytes_lower auth_type = B "session" ->
  a2b_base64 auth_info = Some (u ++ ":"%byte :: n ++ ":"%byte :: s) ->
  ~ In ":"%byte u -> ~ In ":"%byte n -> ~ In ":"%byte s ->
  int_of_bytes n = Some z ->
  parse_authorization_header value
  = Returned (Some {| auth_type_of := U "session";
                      username := decode_latin1 u;
                      userid := z;
                      session := decode_latin1 s |}).
Proof.
  intros Hraw Hsplit Hscheme Hb64 Hu Hn Hs Hint.
  rewrite (parse_split _ Hraw Hsplit), Hscheme.
  rewrite (proj2 (bytes_eqb_eq _ _) eq_refl).
  unfold session_fields, b64decode, obind. rewrite Hb64.
  rewrite (proj2 (bytes_split_three _ u n s)) by tauto.
  cbn [unpack3]. unfold int. now rewrite Hint.
Qed.

Lemma three_fields_give_a_credential_witness :
  parse_authorization_header (PyBytes (B "SESSION YWRtaW46LTE6YWJj"))
  = Returned (Some {| auth_type_of := U "session"; username := U "admin";
                      userid := -1; session := U "abc" |}).
Proof.
  apply (@three_fields_give_a_credential
           (PyBytes (B "SESSION YWRtaW46LTE6YWJj"))
           (B "SESSION YWRtaW46LTE6YWJj") (B "SESSION")
           (B "YWRtaW46LTE6YWJj") (B "admin") (B "-1") (B "abc") (-1)%Z);
    try reflexivity;
    intros H; vm_compute in H; intuition discriminate.
Defined.

Lemma encode_latin1_nil (s : str) (b : bytes) :
  encode_latin1 s = Returned b -> (s = [] <-> b = []).
Proof.
  destruct s as [|c s]; cbn.
  - intros H. inversion H. tauto.
  - destruct (c <? 256)%N; [|discriminate].
    destruct (encode_latin1 s); [|discriminate].
    intros H. inversion H. split; discriminate.
Qed.

(** X22. A str and the bytes it encodes to in Latin-1 parse alike. *)
Theorem str_parses_as_its_bytes (s : str) (b : bytes) :
  encode_latin1 s = Returned b ->
  parse_authorization_header (PyStr s)
  = parse_authorization_header (PyBytes b).
Proof.
  intros Henc. pose proof (encode_latin1_nil _ Henc) as Hnil.
  unfold parse_authorization_header.
  destruct s as [|c s], b as [|x b]; try reflexivity.
  - destruct Hnil as [Hnil _]. discriminate (Hnil eq_refl).
  - destruct Hnil as [_ Hnil]. discriminate (Hnil eq_refl).
  - cbn [falsy as_bytes]. now rewrite Henc.
Qed.

Lemma str_parses_as_its_bytes_witness :
  parse_authorization_header (PyStr (U "session dXNlcjoxMjM6dG9rZW4="))
  = parse_authorization_header (PyBytes (B "session dXNlcjoxMjM6dG9rZW4=")).
Proof.
  apply (@str_parses_as_its_bytes (U "session dXNlcjoxMjM6dG9rZW4=")
           (B "session dXNlcjoxMjM6dG9rZW4=")).
  reflexivity.
Defined.

(** X23. The scheme is read whatever its case: two headers whose
    schemes lower to the same bytes, with the same info, parse alike. *)
Theorem scheme_case_does_not_matter
    (raw raw' auth_type auth_type' auth_info : bytes) :
  bytes_split_ws 1 raw = [auth_type; auth_info] ->
  bytes_split_ws 1 raw' = [auth_type'; auth_info] ->
  bytes_lower auth_type = bytes_lower auth_type' ->
  parse_authorization_header (PyBytes raw)
  = parse_authorization_header (PyBytes raw').
Proof.
  intros Hsplit Hsplit' Hlower.
  rewrite (@parse_split (PyBytes raw) raw auth_type auth_info eq_refl Hsplit).
  rewrite (@parse_split (PyBytes raw') raw' auth_type' auth_info eq_refl
             Hsplit').
  now rewrite Hlower.
Qed.

Lemma scheme_case_does_not_matter_witness :
  parse_authorization_header (PyBytes (B "SeSsIoN dXNlcjoxMjM6dG9rZW4="))
  = parse_authorization_header (PyBytes (B "session dXNlcjoxMjM6dG9rZW4=")).
Proof.
  apply (@scheme_case_does_not_matter (B "SeSsIoN dXNlcjoxMjM6dG9rZW4=")
           (B "session dXNlcjoxMjM6dG9rZW4=") (B "SeSsIoN") (B "session")
           (B "dXNlcjoxMjM6dG9rZW4=")); reflexivity.
Defined.

(** ** The properties of a request *)

Section Authenticator.
Variable security_check :
  string -> option Z -> option str -> Context -> outcome (option Z).
Variable security_login :
  string -> option str -> Credential -> Context -> outcome (option Z).

Local Abbreviation user_id :=
  (RequestClass.user_id security_check security_login).

(** The property [user_id] once the route gave a database name and the
    request a credential. *)
Lemma user_id_eq (self : RequestClass.t) (args : list (string * string))
    (c : ascii) (database_name : string) (auth : Credential)
    (context : Context) :
  RequestClass.view_args self = Some args ->
  dict_get args "database_name" = Some (String c database_name) ->
  RequestClass.authorization self = Returned (Some auth) ->
  RequestClass.context self = Returned context ->
  user_id self
  = if str_eqb (cred_type auth) (U "session") then
      security_check (String c database_name) (cred_userid auth)
        (cred_session auth) context
    else
      match security_login (String c database_name) (cred_username auth)
              auth context with
      | Returned user => Returned user
      | Raised e =>
          if is_RateLimitException e
          then Raised (HTTPException HTTPStatus.TOO_MANY_REQUESTS None)
          else Raised e
      end.
Proof.
  intros Hargs Hdb Hauth Hctx. unfold RequestClass.user_id.
  rewrite Hargs. destruct args as [|item args]; [discriminate Hdb|].
  rewrite Hdb, Hauth. cbn [obind]. rewrite Hctx. reflexivity.
Qed.

(** X24. A request without route arguments, without a database name
    among them, or without a credential has no user, and the identity
    service is not asked: the answer is [None] whatever [security.check]
    and [security.login] would do. *)
Theorem no_credential_no_user (self : RequestClass.t) :
  RequestClass.view_args self = None
  \/ RequestClass.view_args self = Some []
  \/ (exists args,
        RequestClass.view_args self = Some args
        /\ (dict_get args "database_name" = None
            \/ dict_get args "database_name" = Some EmptyString))
  \/ RequestClass.authorization self = Returned None ->
  user_id self = Returned None.
Proof.
  unfold RequestClass.user_id.
  intros [->|[->|[(args & -> & [->| ->])|Hauth]]]; try reflexivity;
    try (destruct args; reflexivity).
  destruct (RequestClass.view_args self) as [[|item args]|];
    try reflexivity.
  destruct (dict_get (item :: args) "database_name") as [[|c db]|];
    try reflexivity.
  now rewrite Hauth.
Qed.

(** X25. A valid session header is resolved by [security.check] alone:
    when werkzeug finds no credential of its own and the header parses
    to a session credential, the user of the request is what
    [security.check] answers for the database of the route and the user
    id and session of the header; [security.login] is not asked, and
    what [security.check] raises, a rate limit included, comes out as it
    is. *)
Theorem session_header_is_checked
    (self : RequestClass.t) (args : list (string * string)) (c : ascii)
    (database_name : string) (a : Authorization) (context : Context) :
  RequestClass.view_args self = Some args ->
  dict_get args "database_name" = Some (String c database_name) ->
  RequestClass.super_authorization self = Returned None ->
  parse_authorization_header (RequestClass.http_authorization self)
  = Returned (Some a) ->
  RequestClass.context self = Returned context ->
  user_id self
  = security_check (String c database_name) (Some (userid a))
      (Some (session a)) context.
Proof.
  intros Hargs Hdb Hsuper Hparse Hctx.
  rewrite (@user_id_eq self args c database_name (credential_of a) context);
    try assumption.
  - cbn [credential_of cred_type cred_userid cred_session].
    now rewrite (parsed_type_is_session _ Hparse), str_eqb_refl.
  - unfold RequestClass.authorization. rewrite Hsuper. cbn [obind].
    now rewrite Hparse.
Qed.

(** X26. A credential of another type than [session] is resolved by
    [security.login]: its answer is the user of the request; a
    [RateLimitException] it raises becomes a 429; anything else it
    raises comes out as it is. *)
Theorem other_credential_is_logged_in
    (self : RequestClass.t) (args : list (string * string)) (c : ascii)
    (database_name : string) (auth : Credential) (context : Context) :
  RequestClass.view_args self = Some args ->
  dict_get args "database_name" = Some (String c database_name) ->
  RequestClass.authorization self = Returned (Some auth) ->
  RequestClass.context self = Returned context ->
  cred_type auth <> U "session" ->
  user_id self
  = match security_login (String c database_name) (cred_username auth)
            auth context with
    | Returned user => Returned user
    | Raised e =>
        if is_RateLimitException e
        then Raised (HTTPException HTTPStatus.TOO_MANY_REQUESTS None)
        else Raised e
    end.
Proof.
  intros Hargs Hdb Hauth Hctx Htype.
  rewrite (@user_id_eq self args c database_name auth context);
    try assumption.
  unfold str_eqb.
  destruct (list_eq_dec N.eq_dec (cred_type auth) (U "session"));
    [contradiction|reflexivity].
Qed.
End Authenticator.

(** ** The text of a request *)

(** X27. [repr] of a request does not raise, whatever reading the
    attributes of the request does; when the URL cannot be read the text
    is the class name and the words [(invalid WSGI environ)]. *)
Theorem repr_does_not_raise (self : RequestClass.t) :
  (exists text, RequestClass.repr self = Returned text)
  /\ (forall e,
        RequestClass.url self = Raised e ->
        RequestClass.repr self
        = Returned (U "<" ++ RequestClass.class_name self ++ U " "
                    ++ U "(invalid WSGI environ)" ++ U ">")).
Proof.
  unfold RequestClass.repr. split.
  - destruct (RequestClass.repr_args self) as [args [e|]]; now eexists.
  - intros e He. unfold RequestClass.repr_args, RequestClass.repr_step.
    rewrite He. reflexivity.
Qed.

(** X28. [repr] shows a credential by its user id, or by its user name
    when it has no user id, and by nothing else: two requests that
    differ only in their credentials, these having the same user id and
    user name, have the same text, whatever the sessions and the
    passwords are. *)
Theorem repr_hides_secrets (self self' : RequestClass.t)
    (auth auth' : Credential) :
  RequestClass.class_name self = RequestClass.class_name self' ->
  RequestClass.url self = RequestClass.url self' ->
  RequestClass.url_decode self = RequestClass.url_decode self' ->
  RequestClass.remote_addr self = RequestClass.remote_addr self' ->
  RequestClass.method self = RequestClass.method self' ->
  RequestClass.rpc_method self = RequestClass.rpc_method self' ->
  RequestClass.authorization self = Returned (Some auth) ->
  RequestClass.authorization self' = Returned (Some auth') ->
  cred_userid auth = cred_userid auth' ->
  cred_username auth = cred_username auth' ->
  RequestClass.repr self = RequestClass.repr self'.
Proof.
  intros Hclass Hurl Hdecode Haddr Hmethod Hrpc Hauth Hauth' Hid Hname.
  unfold RequestClass.repr, RequestClass.repr_args, RequestClass.repr_step.
  rewrite Hclass, Hurl, Hdecode, Haddr, Hmethod, Hrpc, Hauth, Hauth', Hid,
    Hname.
  reflexivity.
Qed.

Example repr_of_a_login :
  RequestClass.repr (routed_request PyNone (Some (basic_credential (U "pw"))))
  = Returned (U "<Request admin@127.0.0.1 'http://localhost/tryton/' [POST]>").
Proof. vm_compute. reflexivity. Qed.

Lemma no_credential_no_user_witness :
  RequestClass.user_id sample_check sample_login
    (routed_request (PyStr (U "session bm90IGEgY3JlZGVudGlhbA==")) None)
  = Returned None.
Proof.
  apply (@no_credential_no_user sample_check sample_login).
  right. right. right. reflexivity.
Defined.

Lemma session_header_is_checked_witness :
  RequestClass.user_id sample_check sample_login
    (routed_request (PyStr (U "session dXNlcjoxMjM6dG9rZW4=")) None)
  = Returned (Some 123%Z).
Proof.
  rewrite (@session_header_is_checked sample_check sample_login
             (routed_request (PyStr (U "session dXNlcjoxMjM6dG9rZW4="))
                None)
             [("database_name", "tryton")]%string "t"%char "ryton"
             {| auth_type_of := U "session"; username := U "user";
                userid := 123; session := U "token" |}
             (mkContext (Some (U "127.0.0.1")) (Some (U "localhost"))
                (U "http") false));
    reflexivity.
Defined.

Lemma other_credential_is_logged_in_witness :
  RequestClass.user_id sample_check sample_login
    (routed_request PyNone (Some (basic_credential (U "pw"))))
  = Raised (HTTPException 429 None).
Proof.
  rewrite (@other_credential_is_logged_in sample_check sample_login
             (routed_request PyNone (Some (basic_credential (U "pw"))))
             [("database_name", "tryton")]%string "t"%char "ryton"
             (basic_credential (U "pw"))
             (mkContext (Some (U "127.0.0.1")) (Some (U "localhost"))
                (U "http") false));
    try reflexivity.
  intros H. discriminate H.
Defined.

Lemma repr_does_not_raise_witness :
  RequestClass.repr unreadable_request
  = Returned (U "<" ++ RequestClass.class_name unreadable_request ++ U " "
              ++ U "(invalid WSGI environ)" ++ U ">").
Proof.
  apply (proj2 (repr_does_not_raise unreadable_request)
           (KeyError "wsgi.url_scheme")).
  reflexivity.
Defined.

Lemma repr_hides_secrets_witness :
  RequestClass.repr
    (routed_request PyNone (Some (basic_credential (U "pw"))))
  = RequestClass.repr
      (routed_request (PyStr (U "Basic YWRtaW46b3RoZXI="))
         (Some (basic_credential (U "other")))).
Proof.
  apply (@repr_hides_secrets
           (routed_request PyNone (Some (basic_credential (U "pw"))))
           (routed_request (PyStr (U "Basic YWRtaW46b3RoZXI="))
              (Some (basic_credential (U "other"))))
           (basic_credential (U "pw")) (basic_credential (U "other")));
    reflexivity.
Defined.
